(** * ServerlessTodo: the Lambda handler of [lambda_function.py]

    A shallow embedding of the request handler ([lambda_handler] and
    [response]) together with the parts of its environment the handler
    calls: [json.dumps], [uuid.uuid4] and the boto3 [Table] resource of the
    table [Todos].  The handler is a Python function with effects (calls to
    the table, exceptions); here it is a computation in a small state and
    exception monad over a [world] that holds the table and the log of the
    calls made to it. *)

From Stdlib Require Import ZArith String Ascii List Lia.
From stdpp Require Import gmap strings list pretty.

Set Warnings "-register-all".
Local Open Scope string_scope.
Local Open Scope Z_scope.

(** ** Python values

    The values the handler manipulates: what [json.loads] yields ([None],
    [bool], [int], [float], [str], [list], [dict] with string keys) and
    what the table resource hands back (the same, with numbers as
    [decimal.Decimal]).  A [str] is a sequence of code points below 256; a
    [float] is identified by the text [float.__repr__] prints for it, a
    [Decimal] by its digits; a [dict] keeps its insertion order. *)

Inductive pyval : Type :=
| PNone
| PBool (b : bool)
| PInt (z : Z)
| PFloat (repr : string)
| PDecimal (digits : string)
| PStr (s : string)
| PList (l : list pyval)
| PDict (d : list (string * pyval)).

(** Exceptions that reach the caller of [lambda_handler]. *)
Inductive exn : Type :=
| KeyError (key : string)
| TypeError (what : string)
| JSONDecodeError
| DecimalRounded
| ClientError (code : string).

Inductive result (A : Type) : Type :=
| Ok (a : A)
| Raise (e : exn).
Arguments Ok {A} a.
Arguments Raise {A} e.

Definition rbind {A B} (r : result A) (k : A → result B) : result B :=
  match r with
  | Ok a => k a
  | Raise e => Raise e
  end.

Definition is_ok {A} (r : result A) : bool :=
  match r with Ok _ => true | Raise _ => false end.

(** [d[key]] on a dict given as its list of entries. *)
Fixpoint dict_get {V} (d : list (string * V)) (key : string) : option V :=
  match d with
  | [] => None
  | (k, v) :: rest => if String.eqb k key then Some v else dict_get rest key
  end.

(** [obj[key]] with a string [key]: a dict looks the key up and raises
    [KeyError] when it is absent; a list, a str and every other value raise
    [TypeError] (a list or str is indexed by integers, the others are not
    subscriptable). *)
Definition subscript (obj : pyval) (key : string) : result pyval :=
  match obj with
  | PDict d =>
      match dict_get d key with
      | Some v => Ok v
      | None => Raise (KeyError key)
      end
  | _ => Raise (TypeError "subscript")
  end.

(** ** [json.dumps]

    With the default arguments: [ensure_ascii=True], separators [", "] and
    [": "], no indentation. *)
Module Json.

Definition dquote : ascii := "034"%char.
Definition backslash : ascii := "092"%char.

Definition hexdigit (n : Z) : ascii :=
  if n <? 10 then ascii_of_N (Z.to_N (48 + n))
  else ascii_of_N (Z.to_N (87 + n)).

Definition code (c : ascii) : Z := Z.of_N (N_of_ascii c).

(** One character of a string literal, as [py_encode_basestring_ascii]
    writes it: the two characters that must be escaped, the short
    escapes of [ESCAPE_DCT], the printable ASCII range [' '..'~'] as it
    is, and every other code point as [\u00XX]. *)
Definition escape_char (c : ascii) : string :=
  let n := code c in
  if n =? 34 then String backslash (String dquote "")
  else if n =? 92 then String backslash (String backslash "")
  else if n =? 8 then String backslash "b"
  else if n =? 12 then String backslash "f"
  else if n =? 10 then String backslash "n"
  else if n =? 13 then String backslash "r"
  else if n =? 9 then String backslash "t"
  else if (32 <=? n) && (n <=? 126) then String c ""
  else String backslash
         ("u00" +:+ String (hexdigit (Z.shiftr n 4))
                      (String (hexdigit (Z.land n 15)) "")).

Fixpoint escape (s : string) : string :=
  match s with
  | EmptyString => ""
  | String c rest => escape_char c +:+ escape rest
  end.

Definition quote (s : string) : string :=
  String dquote (escape s +:+ String dquote "").

Fixpoint join (sep : string) (parts : list string) : string :=
  match parts with
  | [] => ""
  | [p] => p
  | p :: rest => p +:+ sep +:+ join sep rest
  end.

(** [json.dumps(v)].  A [Decimal] is not JSON serializable: the encoder
    raises [TypeError] at the first one it meets. *)
Fixpoint dumps (v : pyval) : result string :=
  match v with
  | PNone => Ok "null"
  | PBool true => Ok "true"
  | PBool false => Ok "false"
  | PInt z => Ok (pretty z)
  | PFloat r => Ok r
  | PDecimal _ => Raise (TypeError "Object of type Decimal is not JSON serializable")
  | PStr s => Ok (quote s)
  | PList l =>
      rbind
        ((fix elems (l : list pyval) : result (list string) :=
            match l with
            | [] => Ok []
            | x :: rest =>
                rbind (dumps x) (λ s,
                rbind (elems rest) (λ ss, Ok (s :: ss)))
            end) l)
        (λ parts, Ok ("[" +:+ join ", " parts +:+ "]"))
  | PDict d =>
      rbind
        ((fix entries (d : list (string * pyval)) : result (list string) :=
            match d with
            | [] => Ok []
            | (k, x) :: rest =>
                rbind (dumps x) (λ s,
                rbind (entries rest) (λ ss, Ok ((quote k +:+ ": " +:+ s) :: ss)))
            end) d)
        (λ parts, Ok ("{" +:+ join ", " parts +:+ "}"))
  end.

End Json.

(** ** [uuid.uuid4] and [str] of a UUID

    [uuid4()] is [UUID(bytes=os.urandom(16), version=4)]: the sixteen random
    bytes are read as a big-endian integer [rnd] (so [0 <= rnd < 2^128]),
    the constructor forces the variant and version bits, and [str] prints
    the 32 hexadecimal digits in groups of 8-4-4-4-12. *)
Module Uuid.

Definition uuid4 (rnd : Z) : Z :=
  let int := rnd in
  (* Set the variant to RFC 4122. *)
  let int := Z.land int (Z.lnot (Z.shiftl 0xc000 48)) in
  let int := Z.lor int (Z.shiftl 0x8000 48) in
  (* Set the version number. *)
  let int := Z.land int (Z.lnot (Z.shiftl 0xf000 64)) in
  Z.lor int (Z.shiftl 4 76).

(** The [n] lowest hexadecimal digits of [x], most significant first:
    ['%032x' % x] is [hex 32 x] for [0 <= x < 2^128]. *)
Fixpoint hex (n : nat) (x : Z) : string :=
  match n with
  | O => ""
  | S n' => hex n' (x / 16) +:+ String (Json.hexdigit (x mod 16)) ""
  end.

Definition dashed (h : string) : string :=
  substring 0 8 h +:+ "-" +:+ substring 8 4 h +:+ "-" +:+ substring 12 4 h
  +:+ "-" +:+ substring 16 4 h +:+ "-" +:+ substring 20 12 h.

Definition str (u : Z) : string := dashed (hex 32 u).

(** The bits of the random draw that survive in the UUID: all of the 128
    but the two variant bits (62, 63) and the four version bits
    (76..79). *)
Definition free_bits : Z :=
  Z.ones 128 - Z.shiftl 0xc000 48 - Z.shiftl 0xf000 64.

Definition fixed_bits : Z := Z.lor (Z.shiftl 0x8000 48) (Z.shiftl 4 76).

(** The value of a hexadecimal digit. *)
Definition unhex (c : ascii) : Z :=
  let n := Json.code c in if n <? 58 then n - 48 else n - 87.

(** Number of bits set among the [n] lowest bits of [x]. *)
Fixpoint popcount (n : nat) (x : Z) : nat :=
  match n with
  | O => O
  | S n' => ((if Z.odd x then 1 else 0) + popcount n' (Z.div2 x))%nat
  end.

End Uuid.

(** ** The table [Todos]

    [table = dynamodb.Table('Todos')] is a boto3 resource over a DynamoDB
    table whose partition key is the string attribute [id] (the handler
    creates every item with [str(uuid.uuid4())] as its [id]).  The module
    gives the five calls the handler makes their documented behaviour:
    - values cross the client boundary through boto3's [TypeSerializer]
      and [TypeDeserializer] (a Python [float] is refused with
      [TypeError], a number comes back as [Decimal]);
    - [PutItem] replaces the whole item stored under the key;
    - [UpdateItem] with [SET completed = :val] edits the attribute of the
      item stored under the key, or adds a new item holding the key and
      that attribute when none is stored;
    - [GetItem] answers with an [Item] entry only when an item is stored;
    - [DeleteItem] removes the item, and succeeds when none is stored;
    - [Scan] without [ExclusiveStartKey] answers with the first page of the
      table: it stops once the items read exceed 1 MB, and then names the
      last item read in [LastEvaluatedKey] (the other entries of the
      answer, which the handler does not read, are left out).
    Reads see the latest write.  Throttling, outages and the limits the
    service puts on single values (key and item size, empty key, nesting
    depth) are outside the model. *)
Module Dynamo.

Inductive attr : Type :=
| AttrS (s : string)
| AttrN (digits : string)
| AttrBool (b : bool)
| AttrNull
| AttrL (l : list attr)
| AttrM (m : list (string * attr)).

(** An item maps attribute names to values. *)
Definition item : Type := list (string * attr).

(** [TypeSerializer.serialize]. An [int] goes through a decimal context
    of precision 38 that traps rounding. *)
Fixpoint serialize (v : pyval) : result attr :=
  match v with
  | PNone => Ok AttrNull
  | PBool b => Ok (AttrBool b)
  | PInt z =>
      if Z.abs z <? 10 ^ 38 then Ok (AttrN (pretty z)) else Raise DecimalRounded
  | PDecimal d => Ok (AttrN d)
  | PFloat _ => Raise (TypeError "Float types are not supported. Use Decimal types instead.")
  | PStr s => Ok (AttrS s)
  | PList l =>
      rbind
        ((fix elems (l : list pyval) : result (list attr) :=
            match l with
            | [] => Ok []
            | x :: rest =>
                rbind (serialize x) (λ a,
                rbind (elems rest) (λ r, Ok (a :: r)))
            end) l)
        (λ r, Ok (AttrL r))
  | PDict d =>
      rbind
        ((fix entries (d : list (string * pyval)) : result (list (string * attr)) :=
            match d with
            | [] => Ok []
            | (k, x) :: rest =>
                rbind (serialize x) (λ a,
                rbind (entries rest) (λ r, Ok ((k, a) :: r)))
            end) d)
        (λ r, Ok (AttrM r))
  end.

(** The attributes of [Item=...], each one serialized. *)
Fixpoint serialize_item (d : list (string * pyval)) : result item :=
  match d with
  | [] => Ok []
  | (k, x) :: rest =>
      rbind (serialize x) (λ a,
      rbind (serialize_item rest) (λ r, Ok ((k, a) :: r)))
  end.

(** [TypeDeserializer.deserialize]. *)
Fixpoint deserialize (a : attr) : pyval :=
  match a with
  | AttrS s => PStr s
  | AttrN d => PDecimal d
  | AttrBool b => PBool b
  | AttrNull => PNone
  | AttrL l => PList (map deserialize l)
  | AttrM m => PDict (map (λ kv, (kv.1, deserialize kv.2)) m)
  end.

Definition deserialize_item (it : item) : pyval :=
  PDict (map (λ kv, (kv.1, deserialize kv.2)) it).

(** An attribute value that holds no number: what it deserializes to
    has no [Decimal] in it. *)
Fixpoint json_safe (a : attr) : bool :=
  match a with
  | AttrN _ => false
  | AttrL l => forallb json_safe l
  | AttrM m => forallb (λ kv, json_safe kv.2) m
  | _ => true
  end.

Definition item_json_safe (it : item) : bool :=
  forallb (λ kv, json_safe kv.2) it.

(** The key attributes of an item: its [id]. *)
Definition key_attrs (it : item) : item :=
  List.filter (λ kv, String.eqb kv.1 "id") it.

(** [Key={'id': v}]: the key of the table is a string. *)
Definition key_of (v : pyval) : result string :=
  rbind (serialize v) (λ a,
    match a with
    | AttrS k => Ok k
    | _ => Raise (ClientError "ValidationException")
    end).

(** [SET name = value] on one item. *)
Fixpoint set_attr (name : string) (value : attr) (it : item) : item :=
  match it with
  | [] => [(name, value)]
  | (k, a) :: rest =>
      if String.eqb k name then (k, value) :: rest
      else (k, a) :: set_attr name value rest
  end.

(** Sizes, as the DynamoDB developer guide counts them. *)
Fixpoint utf8_length (s : string) : Z :=
  match s with
  | EmptyString => 0
  | String c rest => (if Json.code c <? 128 then 1 else 2) + utf8_length rest
  end.

Fixpoint attr_size (a : attr) : Z :=
  match a with
  | AttrS s => utf8_length s
  | AttrN d => (utf8_length d + 1) / 2 + 1
  | AttrBool _ => 1
  | AttrNull => 1
  | AttrL l =>
      3 + (fix sum (l : list attr) : Z :=
             match l with
             | [] => 0
             | x :: rest => 1 + attr_size x + sum rest
             end) l
  | AttrM m =>
      3 + (fix sum (m : list (string * attr)) : Z :=
             match m with
             | [] => 0
             | (k, x) :: rest => 1 + utf8_length k + attr_size x + sum rest
             end) m
  end.

Fixpoint item_size (it : item) : Z :=
  match it with
  | [] => 0
  | (k, a) :: rest => utf8_length k + attr_size a + item_size rest
  end.

Definition page_limit : Z := 1048576.

(** One page of a scan: items are read in order until what has been read
    exceeds the limit. [read] is the size read so far. *)
Fixpoint page (read : Z) (items : list item) : list item :=
  match items with
  | [] => []
  | it :: rest =>
      let read' := read + item_size it in
      it :: (if page_limit <? read' then [] else page read' rest)
  end.

Fixpoint total_size (items : list item) : Z :=
  match items with
  | [] => 0
  | it :: rest => item_size it + total_size rest
  end.

End Dynamo.

(** ** The world: the table and the calls made on it *)

Inductive call : Type :=
| CallScan
| CallPutItem (item : list (string * pyval))
| CallUpdateItem (key : pyval) (value : pyval)
| CallGetItem (key : pyval)
| CallDeleteItem (key : pyval).

Record world : Type := World {
  table : gmap string Dynamo.item;
  calls : list call
}.

(** Computations that read and write the world and may raise. *)
Definition M (A : Type) : Type := world → result A * world.

Definition ret {A} (a : A) : M A := λ w, (Ok a, w).

Definition lift {A} (r : result A) : M A := λ w, (r, w).

Definition bind {A B} (m : M A) (k : A → M B) : M B :=
  λ w, match m w with
       | (Ok a, w') => k a w'
       | (Raise e, w') => (Raise e, w')
       end.

Notation "x <- m ;; k" := (bind m (λ x, k))
  (at level 100, m at next level, right associativity).

Definition record_call (c : call) : M unit :=
  λ w, (Ok tt, World (table w) (calls w ++ [c])).

Definition modify_table (f : gmap string Dynamo.item → gmap string Dynamo.item) : M unit :=
  λ w, (Ok tt, World (f (table w)) (calls w)).

Definition read_table : M (gmap string Dynamo.item) :=
  λ w, (Ok (table w), w).

(** The items of the table in the order a scan meets them. *)
Definition stored_items (t : gmap string Dynamo.item) : list Dynamo.item :=
  (map_to_list t).*2.

(** [table.scan()] *)
Definition scan : M pyval :=
  _ <- record_call CallScan ;;
  t <- read_table ;;
  let all := stored_items t in
  let items := Dynamo.page 0 all in
  let listed := ("Items", PList (map Dynamo.deserialize_item items)) in
  ret (PDict (match last items with
              | Some it =>
                  if (length items <? length all)%nat
                  then [listed;
                        ("LastEvaluatedKey",
                         Dynamo.deserialize_item (Dynamo.key_attrs it))]
                  else [listed]
              | None => [listed]
              end)).

(** [table.put_item(Item=item)] *)
Definition put_item (item : list (string * pyval)) : M unit :=
  _ <- record_call (CallPutItem item) ;;
  it <- lift (Dynamo.serialize_item item) ;;
  match dict_get it "id" with
  | Some (Dynamo.AttrS k) => modify_table (λ t, <[k := it]> t)
  | _ => lift (Raise (ClientError "ValidationException"))
  end.

(** [table.update_item(Key={'id': key},
                       UpdateExpression="SET completed = :val",
                       ExpressionAttributeValues={':val': value})] *)
Definition update_item (key value : pyval) : M unit :=
  _ <- record_call (CallUpdateItem key value) ;;
  k <- lift (Dynamo.key_of key) ;;
  a <- lift (Dynamo.serialize value) ;;
  modify_table (λ t,
    match t !! k with
    | Some it => <[k := Dynamo.set_attr "completed" a it]> t
    | None => <[k := [("id", Dynamo.AttrS k); ("completed", a)]]> t
    end).

(** [table.get_item(Key={'id': key})] *)
Definition get_item (key : pyval) : M pyval :=
  _ <- record_call (CallGetItem key) ;;
  k <- lift (Dynamo.key_of key) ;;
  t <- read_table ;;
  match t !! k with
  | Some it => ret (PDict [("Item", Dynamo.deserialize_item it)])
  | None => ret (PDict [])
  end.

(** [table.delete_item(Key={'id': key})] *)
Definition delete_item (key : pyval) : M unit :=
  _ <- record_call (CallDeleteItem key) ;;
  k <- lift (Dynamo.key_of key) ;;
  modify_table (λ t, delete k t).

(** ** The handler *)

(** The event of an HTTP API request: the method is
    [event['requestContext']['http']['method']]; [event['body']] is
    represented by what [json.loads] makes of it. *)
Inductive payload : Type :=
| NoBody                    (* the event has no ['body'] *)
| Rejected (e : exn)        (* [json.loads] raises [e] *)
| Parsed (data : pyval).    (* [json.loads] returns [data] *)

Record event : Type := Event {
  method : string;
  rawPath : string;
  body_of : payload
}.

(** [json.loads(event['body'])] *)
Definition loads_body (ev : event) : result pyval :=
  match body_of ev with
  | NoBody => Raise (KeyError "body")
  | Rejected e => Raise e
  | Parsed data => Ok data
  end.

Record http_response : Type := Response {
  statusCode : Z;
  headers : list (string * string);
  body : string
}.

Definition cors_headers : list (string * string) :=
  [ ("Access-Control-Allow-Origin", "*");
    ("Access-Control-Allow-Methods", "OPTIONS,GET,POST,PUT,DELETE");
    ("Access-Control-Allow-Headers", "Content-Type") ].

Definition response (status : Z) (body : pyval) : result http_response :=
  rbind (Json.dumps body) (λ text,
    Ok {| statusCode := status; headers := cors_headers; body := text |}).

(** [rnd] is the draw of [os.urandom(16)] that [uuid.uuid4()] makes when
    the POST branch runs. *)
Definition lambda_handler (event : event) (rnd : Z) : M http_response :=
  let method := method event in
  (* Handle CORS preflight *)
  if String.eqb method "OPTIONS" then
    text <- lift (Json.dumps (PDict [("message", PStr "CORS preflight OK")])) ;;
    ret {| statusCode := 200;
           headers :=
             [ ("Access-Control-Allow-Origin", "*");
               ("Access-Control-Allow-Methods", "OPTIONS,GET,POST,PUT,DELETE");
               ("Access-Control-Allow-Headers", "Content-Type") ];
           body := text |}
  else if String.eqb method "GET" then
    result <- scan ;;
    items <- lift (subscript result "Items") ;;
    lift (response 200 items)
  else if String.eqb method "POST" then
    data <- lift (loads_body event) ;;
    let id := PStr (Uuid.str (Uuid.uuid4 rnd)) in
    title <- lift (subscript data "title") ;;
    let item := [("id", id); ("title", title); ("completed", PBool false)] in
    _ <- put_item item ;;
    lift (response 200 (PDict item))
  else if String.eqb method "PUT" then
    data <- lift (loads_body event) ;;
    id <- lift (subscript data "id") ;;
    val <- lift (subscript data "completed") ;;
    _ <- update_item id val ;;
    id' <- lift (subscript data "id") ;;
    updated <- get_item id' ;;
    it <- lift (subscript updated "Item") ;;
    lift (response 200 it)
  else if String.eqb method "DELETE" then
    data <- lift (loads_body event) ;;
    id <- lift (subscript data "id") ;;
    _ <- delete_item id ;;
    id' <- lift (subscript data "id") ;;
    lift (response 200 (PDict [("message", PStr "Deleted"); ("id", id')]))
  else
    lift (response 400 (PDict [("error", PStr "Unsupported method")])).

(** Running the handler on a world. *)
Definition run {A} (m : M A) (w : world) : result A * world := m w.

(** The item that [update_item (PStr k) (PBool b)] leaves under the key
    [k]. *)
Definition updated_item (w : world) (k : string) (b : bool) : Dynamo.item :=
  match table w !! k with
  | Some it => Dynamo.set_attr "completed" (Dynamo.AttrBool b) it
  | None => [("id", Dynamo.AttrS k); ("completed", Dynamo.AttrBool b)]
  end.

(** The methods the dispatch knows. *)
Definition supported_methods : list string :=
  ["OPTIONS"; "GET"; "POST"; "PUT"; "DELETE"].

(** Upper-casing of the ASCII letters, to speak of methods that differ from
    a supported one only in case. *)
Definition upper_char (c : ascii) : ascii :=
  let n := Json.code c in
  if (97 <=? n) && (n <=? 122) then ascii_of_N (Z.to_N (n - 32)) else c.

Fixpoint upper (s : string) : string :=
  match s with
  | EmptyString => ""
  | String c rest => String (upper_char c) (upper rest)
  end.

(** ** Sample data: a table of five to-do items with long titles

    Each item is below the 400 KB the service allows for one item; the five
    together hold about 1.5 MB. *)
Definition long_title : string := N.iter 300000 (String "a") "".

Definition todo (id : string) : Dynamo.item :=
  [ ("id", Dynamo.AttrS id);
    ("title", Dynamo.AttrS long_title);
    ("completed", Dynamo.AttrBool false) ].

Definition crowded_table : gmap string Dynamo.item :=
  <["todo-1" := todo "todo-1"]>
    (<["todo-2" := todo "todo-2"]>
       (<["todo-3" := todo "todo-3"]>
          (<["todo-4" := todo "todo-4"]>
             (<["todo-5" := todo "todo-5"]> ∅)))).

(** The two inner loops of [Json.dumps], over the elements of a list and
    over the entries of a dict, under names of their own. *)
Fixpoint dumps_all (l : list pyval) : result (list string) :=
  match l with
  | [] => Ok []
  | x :: rest =>
      rbind (Json.dumps x) (λ s, rbind (dumps_all rest) (λ ss, Ok (s :: ss)))
  end.

Fixpoint dumps_entries (d : list (string * pyval)) : result (list string) :=
  match d with
  | [] => Ok []
  | (k, x) :: rest =>
      rbind (Json.dumps x) (λ s,
      rbind (dumps_entries rest) (λ ss, Ok ((Json.quote k +:+ ": " +:+ s) :: ss)))
  end.

(** A value [json.loads] can return: it holds no [Decimal]. *)
Fixpoint loadable (v : pyval) : bool :=
  match v with
  | PDecimal _ => false
  | PList l => forallb loadable l
  | PDict d => forallb (λ kv, loadable kv.2) d
  | _ => true
  end.

(** The methods whose branch reads the body of the request. *)
Definition body_methods : list string := ["POST"; "PUT"; "DELETE"].

(** A computation that leaves the table as it is. *)
Definition quiet {A} (m : M A) : Prop :=
  ∀ w, table (m w).2 = table w.

(** A computation after which the table differs under one key at most. *)
Definition one_key {A} (m : M A) : Prop :=
  ∀ w, ∃ k, ∀ k', k' ≠ k → table (m w).2 !! k' = table w !! k'.

(** A computation that keeps the calls logged so far and adds [n] at
    most. *)
Definition appends {A} (n : nat) (m : M A) : Prop :=
  ∀ w, ∃ new, calls (m w).2 = (calls w ++ new)%list ∧ (length new <= n)%nat.

(** The only exception [json.dumps] raises. *)
Definition decimal_error : exn :=
  TypeError "Object of type Decimal is not JSON serializable".

(** ** JSON texts

    What it is for a string to be a JSON text, after the grammar of
    RFC 8259: a literal name, a number, a string or an array or object of
    JSON texts.  Numbers are taken without fraction and exponent, and the
    separators with the one space that the grammar allows after [,] and
    [:]; both accept less than the RFC does, never more. *)
Module JsonText.

Definition is_digit (c : ascii) : bool :=
  let n := Json.code c in (48 <=? n) && (n <=? 57).

Definition is_hex (c : ascii) : bool :=
  let n := Json.code c in
  ((48 <=? n) && (n <=? 57)) || ((97 <=? n) && (n <=? 102))
  || ((65 <=? n) && (n <=? 70)).

(** A character that may stand unescaped in a string. *)
Definition is_unescaped (c : ascii) : bool :=
  let n := Json.code c in (32 <=? n) && negb (n =? 34) && negb (n =? 92).

(** The character after a backslash in a two-character escape. *)
Definition is_short_escape (c : ascii) : bool :=
  let n := Json.code c in
  (n =? 34) || (n =? 92) || (n =? 47) || (n =? 98) || (n =? 102)
  || (n =? 110) || (n =? 114) || (n =? 116).

(** The characters between the quotes of a string. *)
Fixpoint chars (s : string) : bool :=
  match s with
  | EmptyString => true
  | String c rest =>
      if Json.code c =? 92 then
        match rest with
        | String e rest' =>
            if is_short_escape e then chars rest'
            else if Json.code e =? 117 then
              match rest' with
              | String h1 (String h2 (String h3 (String h4 rest''))) =>
                  is_hex h1 && is_hex h2 && is_hex h3 && is_hex h4
                  && chars rest''
              | _ => false
              end
            else false
        | EmptyString => false
        end
      else is_unescaped c && chars rest
  end.

Fixpoint digits (s : string) : bool :=
  match s with
  | EmptyString => true
  | String c rest => is_digit c && digits rest
  end.

(** A natural number: [0], or digits that do not start with [0]. *)
Definition natural (s : string) : bool :=
  match s with
  | EmptyString => false
  | String c rest =>
      if Json.code c =? 48 then
        match rest with EmptyString => true | _ => false end
      else is_digit c && digits rest
  end.

(** An integer: a natural number, with a minus sign or not. *)
Definition integer (s : string) : bool :=
  match s with
  | String c rest => if Json.code c =? 45 then natural rest else natural s
  | EmptyString => false
  end.

Definition quoted (s : string) : string :=
  String Json.dquote (s +:+ String Json.dquote "").

Inductive text : string → Prop :=
| text_null : text "null"
| text_true : text "true"
| text_false : text "false"
| text_number s : integer s = true → text s
| text_string s : chars s = true → text (quoted s)
| text_empty_array : text "[]"
| text_array s : elements s → text ("[" +:+ s +:+ "]")
| text_empty_object : text "{}"
| text_object s : members s → text ("{" +:+ s +:+ "}")
with elements : string → Prop :=
| elements_one s : text s → elements s
| elements_more s rest :
    text s → elements rest → elements (s +:+ ", " +:+ rest)
with members : string → Prop :=
| members_one k s :
    chars k = true → text s → members (quoted k +:+ ": " +:+ s)
| members_more k s rest :
    chars k = true → text s → members rest →
    members ((quoted k +:+ ": " +:+ s) +:+ ", " +:+ rest).

End JsonText.

(** An entry of an object: a quoted key, a colon and a JSON text. *)
Definition member_text (m : string) : Prop :=
  ∃ k s, JsonText.chars k = true ∧ JsonText.text s
         ∧ m = JsonText.quoted k +:+ ": " +:+ s.

(** A value without [float] in it. *)
Fixpoint no_float (v : pyval) : bool :=
  match v with
  | PFloat _ => false
  | PList l => forallb no_float l
  | PDict d => forallb (λ kv, no_float kv.2) d
  | _ => true
  end.

(** A [dict] or a [list]: what becomes a JSON object or array. *)
Definition is_container (v : pyval) : bool :=
  match v with
  | PList _ | PDict _ => true
  | _ => false
  end.

(** * Facts *)

(** ** Strings *)

Lemma length_append (s t : string) :
  String.length (s +:+ t) = (String.length s + String.length t)%nat.
Proof. induction s as [| c s IH]; simpl; [done | by rewrite IH]. Qed.

Lemma append_last_inj s1 s2 a b :
  s1 +:+ String a "" = s2 +:+ String b "" → s1 = s2 ∧ a = b.
Proof.
  revert s2. induction s1 as [| c s1 IH]; intros [| d s2] H; simpl in H.
  - by injection H as ->.
  - injection H as -> H. destruct s2; discriminate.
  - injection H as -> H. destruct s1; discriminate.
  - injection H as -> H. destruct (IH _ H) as [-> ->]. done.
Qed.

(** ** UUIDs: the text of a UUID determines its 128 bits, and [uuid4]
    keeps 122 bits of its draw *)
Module UuidFacts.
Import Uuid.

Lemma unhex_hexdigit n : 0 <= n < 16 → unhex (Json.hexdigit n) = n.
Proof.
  intros H.
  assert (n = 0 ∨ n = 1 ∨ n = 2 ∨ n = 3 ∨ n = 4 ∨ n = 5 ∨ n = 6 ∨ n = 7 ∨
          n = 8 ∨ n = 9 ∨ n = 10 ∨ n = 11 ∨ n = 12 ∨ n = 13 ∨ n = 14 ∨ n = 15)
    as Hn by lia.
  repeat (destruct Hn as [-> | Hn]; [reflexivity |]). subst n. reflexivity.
Qed.

Lemma hex_inj n x y :
  0 <= x < 16 ^ Z.of_nat n → 0 <= y < 16 ^ Z.of_nat n →
  hex n x = hex n y → x = y.
Proof.
  revert x y. induction n as [| n IH]; intros x y Hx Hy H.
  - simpl in Hx, Hy. lia.
  - rewrite Nat2Z.inj_succ, Z.pow_succ_r in Hx, Hy by lia.
    simpl in H. apply append_last_inj in H as [Hq Hr].
    apply (f_equal unhex) in Hr.
    rewrite !unhex_hexdigit in Hr by (apply Z.mod_pos_bound; lia).
    apply IH in Hq;
      [| split; [apply Z.div_pos; lia | apply Z.div_lt_upper_bound; lia] ..].
    rewrite (Z.div_mod x 16), (Z.div_mod y 16) by lia. congruence.
Qed.

Lemma hex_length n x : String.length (hex n x) = n.
Proof.
  revert x. induction n as [| n IH]; intros x; simpl; [done |].
  rewrite length_append, IH. simpl. lia.
Qed.

Lemma dashed_inj h1 h2 :
  String.length h1 = 32%nat → String.length h2 = 32%nat →
  dashed h1 = dashed h2 → h1 = h2.
Proof.
  intros L1 L2 H.
  do 32 (destruct h1 as [| ? h1]; [discriminate L1 |]).
  destruct h1; [| discriminate L1].
  do 32 (destruct h2 as [| ? h2]; [discriminate L2 |]).
  destruct h2; [| discriminate L2].
  cbn in H. injection H. intros. subst. reflexivity.
Qed.

Lemma str_inj x y :
  0 <= x < 2 ^ 128 → 0 <= y < 2 ^ 128 → str x = str y → x = y.
Proof.
  intros Hx Hy H. apply (hex_inj 32); [exact Hx | exact Hy |].
  apply dashed_inj; [apply hex_length .. | exact H].
Qed.

Lemma in_range_land r : 0 <= r < 2 ^ 128 → r = Z.land r (Z.ones 128).
Proof. intros H. rewrite Z.land_ones, Z.mod_small; lia. Qed.

(** [uuid4] keeps the free bits of its draw and forces the others. *)
Lemma uuid4_bits r :
  0 <= r < 2 ^ 128 → uuid4 r = Z.lor (Z.land r free_bits) fixed_bits.
Proof.
  intros H. unfold uuid4. rewrite (in_range_land r H).
  rewrite Z.land_lor_distr_l, <- !Z.land_assoc, <- Z.lor_assoc.
  reflexivity.
Qed.

Lemma uuid4_range r : 0 <= r < 2 ^ 128 → 0 <= uuid4 r < 2 ^ 128.
Proof.
  intros H.
  assert (uuid4 r = Z.land (uuid4 r) (Z.ones 128)) as ->.
  { rewrite (uuid4_bits r H), Z.land_lor_distr_l, <- Z.land_assoc.
    reflexivity. }
  rewrite Z.land_ones by lia. apply Z.mod_pos_bound. lia.
Qed.

Lemma uuid4_free r :
  0 <= r < 2 ^ 128 → Z.land (uuid4 r) free_bits = Z.land r free_bits.
Proof.
  intros H.
  rewrite (uuid4_bits r H), Z.land_lor_distr_l, <- Z.land_assoc.
  change (Z.land free_bits free_bits) with free_bits.
  change (Z.land fixed_bits free_bits) with 0.
  apply Z.lor_0_r.
Qed.

(** Two draws give the same identifier exactly when they agree on the
    free bits. *)
Lemma same_id r1 r2 :
  0 <= r1 < 2 ^ 128 → 0 <= r2 < 2 ^ 128 →
  str (uuid4 r1) = str (uuid4 r2) ↔ Z.land r1 free_bits = Z.land r2 free_bits.
Proof.
  intros H1 H2. split.
  - intros H. apply str_inj in H; [| by apply uuid4_range ..].
    by rewrite <- (uuid4_free r1), <- (uuid4_free r2), H.
  - intros H. by rewrite (uuid4_bits r1), (uuid4_bits r2), H.
Qed.

Lemma free_bits_count : popcount 128 free_bits = 122%nat.
Proof. reflexivity. Qed.

End UuidFacts.

Example uuid4_all_ones :
  Uuid.str (Uuid.uuid4 (2 ^ 128 - 1)) = "ffffffff-ffff-4fff-bfff-ffffffffffff".
Proof. reflexivity. Qed.

(** ** [json.dumps] and what the table hands back *)

Lemma dumps_list l :
  Json.dumps (PList l)
  = rbind (dumps_all l) (λ parts, Ok ("[" +:+ Json.join ", " parts +:+ "]")).
Proof. reflexivity. Qed.

Lemma dumps_dict d :
  Json.dumps (PDict d)
  = rbind (dumps_entries d) (λ parts, Ok ("{" +:+ Json.join ", " parts +:+ "}")).
Proof. reflexivity. Qed.

Lemma is_ok_rbind_ok {A B} (r : result A) (f : A → B) :
  is_ok (rbind r (λ a, Ok (f a))) = is_ok r.
Proof. by destruct r. Qed.

Lemma dumps_all_ok l :
  Forall (λ v, is_ok (Json.dumps v) = true) l → is_ok (dumps_all l) = true.
Proof.
  induction 1 as [| v l Hv _ IH]; simpl; [done |].
  destruct (Json.dumps v); [| done]. simpl. by destruct (dumps_all l).
Qed.

Lemma dumps_entries_ok d :
  Forall (λ kv, is_ok (Json.dumps kv.2) = true) d → is_ok (dumps_entries d) = true.
Proof.
  induction 1 as [| [k v] d Hv _ IH]; simpl in *; [done |].
  destruct (Json.dumps v); [| done]. simpl. by destruct (dumps_entries d).
Qed.

Lemma dumps_safe (a : Dynamo.attr) :
  Dynamo.json_safe a = true → is_ok (Json.dumps (Dynamo.deserialize a)) = true.
Proof.
  revert a. fix dumps_safe 1.
  intros a. destruct a as [s | d | b | | l | m]; intros H; try done.
  - by destruct b.
  - cbn [Dynamo.deserialize]. rewrite dumps_list, is_ok_rbind_ok.
    apply dumps_all_ok. simpl in H.
    induction l as [| x l IH]; simpl in *; [constructor |].
    apply andb_prop in H as [Hx Hl]. constructor; [by apply dumps_safe | by apply IH].
  - cbn [Dynamo.deserialize]. rewrite dumps_dict, is_ok_rbind_ok.
    apply dumps_entries_ok. simpl in H.
    induction m as [| [k x] m IH]; simpl in *; [constructor |].
    apply andb_prop in H as [Hx Hl]. constructor; [by apply dumps_safe | by apply IH].
Qed.

Lemma dumps_item_safe it :
  Dynamo.item_json_safe it = true →
  is_ok (Json.dumps (Dynamo.deserialize_item it)) = true.
Proof. exact (dumps_safe (Dynamo.AttrM it)). Qed.

Lemma dumps_items_safe l :
  Forall (λ it, Dynamo.item_json_safe it = true) l →
  is_ok (Json.dumps (PList (map Dynamo.deserialize_item l))) = true.
Proof.
  intros H. rewrite dumps_list, is_ok_rbind_ok. apply dumps_all_ok.
  induction H as [| it l Hit _ IH]; simpl; constructor; [by apply dumps_item_safe | done].
Qed.

Lemma response_ok status v :
  is_ok (Json.dumps v) = true →
  ∃ text, Json.dumps v = Ok text ∧ response status v = Ok (Response status cors_headers text).
Proof.
  unfold response. destruct (Json.dumps v) as [text |]; [| done].
  intros _. by exists text.
Qed.

Lemma response_inv status v r :
  response status v = Ok r →
  statusCode r = status ∧ headers r = cors_headers ∧ Json.dumps v = Ok (body r).
Proof.
  unfold response. destruct (Json.dumps v) as [text |]; [| done].
  simpl. by intros [= <-].
Qed.

(** ** Sizes and scan pages *)

Lemma utf8_length_nonneg s : 0 <= Dynamo.utf8_length s.
Proof. induction s as [| c s IH]; simpl; [lia |]. destruct (_ <? _); lia. Qed.

Lemma attr_size_nonneg (a : Dynamo.attr) : 0 <= Dynamo.attr_size a.
Proof.
  revert a. fix attr_size_nonneg 1.
  intros a. destruct a as [s | d | b | | l | m]; simpl; try lia.
  - apply utf8_length_nonneg.
  - pose proof (utf8_length_nonneg d). apply Z.add_nonneg_nonneg; [| lia].
    apply Z.div_pos; lia.
  - apply Z.add_nonneg_nonneg; [lia |].
    induction l as [| x l IH]; [lia |].
    pose proof (attr_size_nonneg x). lia.
  - apply Z.add_nonneg_nonneg; [lia |].
    induction m as [| [k x] m IH]; [lia |].
    pose proof (attr_size_nonneg x). pose proof (utf8_length_nonneg k). lia.
Qed.

Lemma item_size_nonneg it : 0 <= Dynamo.item_size it.
Proof.
  induction it as [| [k a] it IH]; simpl; [lia |].
  pose proof (utf8_length_nonneg k). pose proof (attr_size_nonneg a). lia.
Qed.

Lemma total_size_nonneg l : 0 <= Dynamo.total_size l.
Proof.
  induction l as [| it l IH]; simpl; [lia |].
  pose proof (item_size_nonneg it). lia.
Qed.

(** A table that fits the page limit is scanned whole. *)
Lemma page_fits l read :
  read + Dynamo.total_size l <= Dynamo.page_limit → Dynamo.page read l = l.
Proof.
  revert read. induction l as [| it l IH]; intros read H; simpl in *; [done |].
  pose proof (total_size_nonneg l).
  destruct (Z.ltb_spec Dynamo.page_limit (read + Dynamo.item_size it)); [lia |].
  f_equal. apply IH. lia.
Qed.

(** A page is a prefix of the items scanned. *)
Lemma page_prefix l read : ∃ rest, l = (Dynamo.page read l ++ rest)%list.
Proof.
  revert read. induction l as [| it l IH]; intros read; simpl; [by exists [] |].
  destruct (_ <? _); [by exists l |].
  destruct (IH (read + Dynamo.item_size it)) as [rest Hr].
  exists rest. simpl. by rewrite <- Hr.
Qed.

Lemma elem_of_stored_items (t : gmap string Dynamo.item) it :
  it ∈ stored_items t ↔ ∃ k, t !! k = Some it.
Proof.
  unfold stored_items. rewrite list_elem_of_fmap. split.
  - intros [[k it'] [-> H]]. exists k. by apply elem_of_map_to_list in H.
  - intros [k H]. exists (k, it). split; [done |]. by apply elem_of_map_to_list.
Qed.

Lemma dict_get_set_attr_eq name v it :
  dict_get (Dynamo.set_attr name v it) name = Some v.
Proof.
  induction it as [| [k a] it IH]; simpl.
  - by rewrite String.eqb_refl.
  - destruct (String.eqb k name) eqn:E; simpl; by rewrite E.
Qed.

Lemma dict_get_set_attr_ne name v it a :
  a ≠ name → dict_get (Dynamo.set_attr name v it) a = dict_get it a.
Proof.
  intros Ha.
  assert (String.eqb name a = false) as Hna by (apply String.eqb_neq; congruence).
  induction it as [| [k x] it IH]; simpl.
  - by rewrite Hna.
  - destruct (String.eqb k name) eqn:E; simpl.
    + apply String.eqb_eq in E as ->. by rewrite Hna.
    + by rewrite IH.
Qed.

(** ** The branches of the dispatch *)

Lemma handler_options ev rnd :
  method ev = "OPTIONS" →
  lambda_handler ev rnd =
    (text <- lift (Json.dumps (PDict [("message", PStr "CORS preflight OK")])) ;;
     ret (Response 200 cors_headers text)).
Proof. intros H. unfold lambda_handler. by rewrite H. Qed.

Lemma handler_get ev rnd :
  method ev = "GET" →
  lambda_handler ev rnd =
    (result <- scan ;;
     items <- lift (subscript result "Items") ;;
     lift (response 200 items)).
Proof. intros H. unfold lambda_handler. by rewrite H. Qed.

Lemma handler_post ev rnd :
  method ev = "POST" →
  lambda_handler ev rnd =
    (data <- lift (loads_body ev) ;;
     title <- lift (subscript data "title") ;;
     let item := [("id", PStr (Uuid.str (Uuid.uuid4 rnd))); ("title", title);
                  ("completed", PBool false)] in
     _ <- put_item item ;;
     lift (response 200 (PDict item))).
Proof. intros H. unfold lambda_handler. by rewrite H. Qed.

Lemma handler_put ev rnd :
  method ev = "PUT" →
  lambda_handler ev rnd =
    (data <- lift (loads_body ev) ;;
     id <- lift (subscript data "id") ;;
     val <- lift (subscript data "completed") ;;
     _ <- update_item id val ;;
     id' <- lift (subscript data "id") ;;
     updated <- get_item id' ;;
     it <- lift (subscript updated "Item") ;;
     lift (response 200 it)).
Proof. intros H. unfold lambda_handler. by rewrite H. Qed.

Lemma handler_delete ev rnd :
  method ev = "DELETE" →
  lambda_handler ev rnd =
    (data <- lift (loads_body ev) ;;
     id <- lift (subscript data "id") ;;
     _ <- delete_item id ;;
     id' <- lift (subscript data "id") ;;
     lift (response 200 (PDict [("message", PStr "Deleted"); ("id", id')]))).
Proof. intros H. unfold lambda_handler. by rewrite H. Qed.

Lemma handler_unsupported ev rnd :
  method ev ∉ supported_methods →
  lambda_handler ev rnd =
    lift (response 400 (PDict [("error", PStr "Unsupported method")])).
Proof.
  unfold supported_methods. rewrite !not_elem_of_cons.
  intros (H1 & H2 & H3 & H4 & H5 & _). unfold lambda_handler.
  by rewrite !(proj2 (String.eqb_neq _ _)).
Qed.

(** What each branch does to the world, for a well-formed request. *)

Lemma run_options ev rnd w :
  method ev = "OPTIONS" →
  ∃ text,
    Json.dumps (PDict [("message", PStr "CORS preflight OK")]) = Ok text ∧
    run (lambda_handler ev rnd) w = (Ok (Response 200 cors_headers text), w).
Proof. intros H. rewrite handler_options by done. by eexists. Qed.

Lemma run_get ev rnd w :
  method ev = "GET" →
  run (lambda_handler ev rnd) w =
    (response 200
       (PList (map Dynamo.deserialize_item (Dynamo.page 0 (stored_items (table w))))),
     World (table w) (calls w ++ [CallScan])).
Proof.
  intros H. rewrite handler_get by done.
  unfold run, bind, scan, record_call, read_table, ret, lift. simpl.
  destruct (last _); [| done]. by destruct (_ <? _)%nat.
Qed.

Lemma run_post ev rnd w data t :
  method ev = "POST" → body_of ev = Parsed data →
  subscript data "title" = Ok (PStr t) →
  let id := Uuid.str (Uuid.uuid4 rnd) in
  let item := [("id", PStr id); ("title", PStr t); ("completed", PBool false)] in
  run (lambda_handler ev rnd) w =
    (response 200 (PDict item),
     World (<[id := [("id", Dynamo.AttrS id); ("title", Dynamo.AttrS t);
                     ("completed", Dynamo.AttrBool false)]]> (table w))
           (calls w ++ [CallPutItem item])).
Proof.
  intros Hm Hb Ht id item. rewrite handler_post by done.
  unfold run, bind, lift, loads_body. by rewrite Hb, Ht.
Qed.

Lemma run_put ev rnd w data k b :
  method ev = "PUT" → body_of ev = Parsed data →
  subscript data "id" = Ok (PStr k) →
  subscript data "completed" = Ok (PBool b) →
  run (lambda_handler ev rnd) w =
    (response 200 (Dynamo.deserialize_item (updated_item w k b)),
     World (<[k := updated_item w k b]> (table w))
           (calls w ++ [CallUpdateItem (PStr k) (PBool b); CallGetItem (PStr k)])).
Proof.
  intros Hm Hb Hk Hc. rewrite handler_put by done.
  unfold run, bind, lift, loads_body. rewrite Hb, Hk, Hc.
  unfold update_item, get_item, bind, lift, record_call, modify_table, read_table, ret.
  simpl. rewrite <- app_assoc. simpl.
  unfold updated_item.
  destruct (table w !! k) as [it |]; by rewrite lookup_insert_eq.
Qed.

Lemma run_delete ev rnd w data k :
  method ev = "DELETE" → body_of ev = Parsed data →
  subscript data "id" = Ok (PStr k) →
  run (lambda_handler ev rnd) w =
    (response 200 (PDict [("message", PStr "Deleted"); ("id", PStr k)]),
     World (delete k (table w)) (calls w ++ [CallDeleteItem (PStr k)])).
Proof.
  intros Hm Hb Hk. rewrite handler_delete by done.
  unfold run, bind, lift, loads_body. by rewrite Hb, Hk.
Qed.

Lemma run_unsupported ev rnd w :
  method ev ∉ supported_methods →
  ∃ text,
    Json.dumps (PDict [("error", PStr "Unsupported method")]) = Ok text ∧
    run (lambda_handler ev rnd) w = (Ok (Response 400 cors_headers text), w).
Proof. intros H. rewrite handler_unsupported by done. by eexists. Qed.

Lemma bind_ok_inv {A B} (m : M A) (k : A → M B) w b w' :
  bind m k w = (Ok b, w') → ∃ a w1, m w = (Ok a, w1) ∧ k a w1 = (Ok b, w').
Proof.
  unfold bind. destruct (m w) as [[a | e] w1]; [| done]. intros H. by exists a, w1.
Qed.

Lemma lift_response_inv status v w r w' :
  lift (response status v) w = (Ok r, w') →
  statusCode r = status ∧ headers r = cors_headers ∧ Json.dumps v = Ok (body r).
Proof. unfold lift. intros [= H _]. by apply response_inv. Qed.

(** ** What [json.dumps] writes is a JSON text *)

Lemma chars_escape_char c t :
  JsonText.chars (Json.escape_char c +:+ t) = JsonText.chars t.
Proof. destruct c as [[] [] [] [] [] [] [] []]; reflexivity. Qed.

Lemma chars_escape s : JsonText.chars (Json.escape s) = true.
Proof.
  induction s as [| c s IH]; [done |].
  cbn [Json.escape]. by rewrite chars_escape_char.
Qed.

Lemma is_digit_pretty_N_char x : JsonText.is_digit (pretty_N_char x) = true.
Proof. unfold pretty_N_char. by repeat case_match. Qed.

Lemma pretty_N_char_nonzero x :
  (0 < x < 10)%N → (Json.code (pretty_N_char x) =? 48) = false.
Proof.
  intros H.
  assert (x = 1 ∨ x = 2 ∨ x = 3 ∨ x = 4 ∨ x = 5 ∨ x = 6 ∨ x = 7 ∨ x = 8 ∨ x = 9)%N
    as Hx by lia.
  repeat (destruct Hx as [-> | Hx]; [reflexivity |]). by subst x.
Qed.

(** The digits of a positive number: no leading zero. *)
Lemma natural_pretty_N_go x s :
  (0 < x)%N → JsonText.digits s = true →
  ∃ c rest,
    pretty_N_go x s = String c rest
    ∧ (Json.code c =? 48) = false
    ∧ JsonText.is_digit c = true ∧ JsonText.digits rest = true.
Proof.
  revert s. induction (N.lt_wf_0 x) as [x _ IH]; intros s Hx Hs.
  rewrite pretty_N_go_step by done.
  assert (JsonText.digits (String (pretty_N_char (x `mod` 10)) s) = true) as Hs'.
  { simpl. by rewrite is_digit_pretty_N_char. }
  destruct (decide (x `div` 10 = 0)%N) as [Hz | Hnz].
  - rewrite Hz, pretty_N_go_0. eexists _, _. split; [done |].
    assert (x < 10)%N by (by apply (N.div_small_iff x 10)).
    rewrite N.mod_small by done.
    split; [by apply pretty_N_char_nonzero |].
    split; [apply is_digit_pretty_N_char | done].
  - apply IH; [by apply N.div_lt | by apply N.neq_0_lt_0 | done].
Qed.

Lemma natural_pretty_N (x : N) : JsonText.natural (pretty x) = true.
Proof.
  unfold pretty, pretty_N. case_decide as Hx; [done |].
  destruct (natural_pretty_N_go x "" ltac:(lia) eq_refl) as (c & rest & -> & Hc & Hd & Hr).
  unfold JsonText.natural. by rewrite Hc, Hd, Hr.
Qed.

Lemma integer_pretty_Z (z : Z) : JsonText.integer (pretty z) = true.
Proof.
  destruct z as [| p | p]; [done | |].
  - change (pretty (Z.pos p)) with (pretty (N.pos p)).
    pose proof (natural_pretty_N (N.pos p)) as Hn.
    unfold pretty, pretty_N in *. case_decide as Hx; [done |].
    destruct (natural_pretty_N_go (N.pos p) "" ltac:(lia) eq_refl)
      as (c & rest & Heq & Hc & Hd & Hr).
    rewrite Heq in *. unfold JsonText.integer.
    destruct (Json.code c =? 45) eqn:E; [| done].
    apply Z.eqb_eq in E. unfold JsonText.is_digit in Hd. rewrite E in Hd. done.
  - change (pretty (Z.neg p)) with ("-" +:+ pretty (N.pos p)).
    cbn -[pretty]. apply natural_pretty_N.
Qed.

Lemma elements_join parts :
  parts ≠ [] → Forall JsonText.text parts →
  JsonText.elements (Json.join ", " parts).
Proof.
  intros Hne H. induction H as [| p rest Hp Hrest IH]; [done |].
  destruct rest as [| q rest]; [by apply JsonText.elements_one |].
  change (Json.join ", " (p :: q :: rest))
    with (p +:+ ", " +:+ Json.join ", " (q :: rest)).
  apply JsonText.elements_more; [done | by apply IH].
Qed.

Lemma members_join ms :
  ms ≠ [] → Forall member_text ms → JsonText.members (Json.join ", " ms).
Proof.
  intros Hne H. induction H as [| m rest Hm Hrest IH]; [done |].
  destruct Hm as (k & s & Hk & Hs & ->).
  destruct rest as [| q rest]; [by apply JsonText.members_one |].
  change (Json.join ", " ((JsonText.quoted k +:+ ": " +:+ s) :: q :: rest))
    with ((JsonText.quoted k +:+ ": " +:+ s) +:+ ", " +:+ Json.join ", " (q :: rest)).
  apply JsonText.members_more; [done | done | by apply IH].
Qed.

Lemma dumps_text v s :
  no_float v = true → Json.dumps v = Ok s → JsonText.text s.
Proof.
  revert v s. fix IH 1.
  intros v s. destruct v as [| b | z | r | d | t | l | d]; intros Hv Hs.
  - injection Hs as <-. constructor.
  - clear IH. destruct b; injection Hs as <-; constructor.
  - clear IH. injection Hs as <-. apply JsonText.text_number, integer_pretty_Z.
  - discriminate Hv.
  - discriminate Hs.
  - clear IH. injection Hs as <-. apply (JsonText.text_string (Json.escape t)).
    apply chars_escape.
  - rewrite dumps_list in Hs.
    destruct (dumps_all l) as [parts |] eqn:Hl; [| discriminate Hs].
    injection Hs as <-.
    assert (Forall JsonText.text parts) as Hparts.
    { clear -IH Hv Hl. simpl in Hv. revert parts Hl.
      induction l as [| x l IHl]; intros parts Hl; simpl in Hl.
      - injection Hl as <-. constructor.
      - apply andb_prop in Hv as [Hx Hv].
        destruct (Json.dumps x) as [sx |] eqn:Hsx; [| discriminate Hl].
        simpl in Hl. destruct (dumps_all l) as [ps |]; [| discriminate Hl].
        injection Hl as <-. constructor; [by apply (IH x) | by apply IHl]. }
    destruct parts as [| p parts]; [apply JsonText.text_empty_array |].
    apply JsonText.text_array. by apply elements_join.
  - rewrite dumps_dict in Hs.
    destruct (dumps_entries d) as [ms |] eqn:Hd; [| discriminate Hs].
    injection Hs as <-.
    assert (Forall member_text ms) as Hms.
    { clear -IH Hv Hd. simpl in Hv. revert ms Hd.
      induction d as [| [k x] d IHd]; intros ms Hd; simpl in Hd.
      - injection Hd as <-. constructor.
      - simpl in Hv. apply andb_prop in Hv as [Hx Hv].
        destruct (Json.dumps x) as [sx |] eqn:Hsx; [| discriminate Hd].
        simpl in Hd. destruct (dumps_entries d) as [ps |]; [| discriminate Hd].
        injection Hd as <-. constructor; [| by apply IHd].
        exists (Json.escape k), sx.
        split; [apply chars_escape |]. split; [by apply (IH x) | done]. }
    destruct ms as [| m ms]; [apply JsonText.text_empty_object |].
    apply JsonText.text_object. by apply members_join.
Qed.

(** ** The values the handler dumps *)

Lemma serialize_no_float v a : Dynamo.serialize v = Ok a → no_float v = true.
Proof.
  revert v a. fix IH 1.
  intros v a. destruct v as [| b | z | r | d | t | l | d]; intros H;
    try reflexivity; try discriminate H.
  - simpl in H.
    destruct ((fix elems (l : list pyval) : result (list Dynamo.attr) :=
                 match l with
                 | [] => Ok []
                 | x :: rest =>
                     rbind (Dynamo.serialize x) (λ a,
                     rbind (elems rest) (λ r, Ok (a :: r)))
                 end) l) as [r |] eqn:Hl; [| discriminate H].
    clear H a. simpl. revert r Hl.
    induction l as [| x l IHl]; intros r Hl; [done |].
    destruct (Dynamo.serialize x) as [ax |] eqn:Hx; [| discriminate Hl].
    simpl in Hl.
    destruct ((fix elems (l : list pyval) : result (list Dynamo.attr) :=
                 match l with
                 | [] => Ok []
                 | x :: rest =>
                     rbind (Dynamo.serialize x) (λ a,
                     rbind (elems rest) (λ r, Ok (a :: r)))
                 end) l) as [r' |] eqn:Hl'; [| discriminate Hl].
    simpl. by rewrite (IH x ax Hx), (IHl r' eq_refl).
  - simpl in H.
    destruct ((fix entries (d : list (string * pyval))
                 : result (list (string * Dynamo.attr)) :=
                 match d with
                 | [] => Ok []
                 | (k, x) :: rest =>
                     rbind (Dynamo.serialize x) (λ a,
                     rbind (entries rest) (λ r, Ok ((k, a) :: r)))
                 end) d) as [r |] eqn:Hd; [| discriminate H].
    clear H a. simpl. revert r Hd.
    induction d as [| [k x] d IHd]; intros r Hd; [done |].
    destruct (Dynamo.serialize x) as [ax |] eqn:Hx; [| discriminate Hd].
    simpl in Hd.
    destruct ((fix entries (d : list (string * pyval))
                 : result (list (string * Dynamo.attr)) :=
                 match d with
                 | [] => Ok []
                 | (k, x) :: rest =>
                     rbind (Dynamo.serialize x) (λ a,
                     rbind (entries rest) (λ r, Ok ((k, a) :: r)))
                 end) d) as [r' |] eqn:Hd'; [| discriminate Hd].
    simpl. by rewrite (IH x ax Hx), (IHd r' eq_refl).
Qed.

Lemma serialize_item_no_float item it :
  Dynamo.serialize_item item = Ok it → no_float (PDict item) = true.
Proof.
  revert it. induction item as [| [k x] item IH]; intros it H; [done |].
  simpl in H. destruct (Dynamo.serialize x) as [a |] eqn:Hx; [| discriminate H].
  simpl in H. destruct (Dynamo.serialize_item item) as [r |]; [| discriminate H].
  simpl in *. by rewrite (serialize_no_float x a Hx), (IH r eq_refl).
Qed.

Lemma no_float_deserialize a : no_float (Dynamo.deserialize a) = true.
Proof.
  revert a. fix IH 1.
  intros a. destruct a as [s | d | b | | l | m]; try reflexivity.
  - simpl. induction l as [| x l IHl]; simpl; [done |]. by rewrite IH, IHl.
  - simpl. induction m as [| [k x] m IHm]; simpl; [done |]. by rewrite IH, IHm.
Qed.

Lemma no_float_deserialize_item it :
  no_float (Dynamo.deserialize_item it) = true.
Proof. exact (no_float_deserialize (Dynamo.AttrM it)). Qed.

Lemma no_float_deserialize_items (l : list Dynamo.item) :
  no_float (PList (map Dynamo.deserialize_item l)) = true.
Proof.
  induction l as [| it l IH]; [done |].
  cbn [map no_float forallb] in *. by rewrite no_float_deserialize_item, IH.
Qed.

(** What the table calls return when they return. *)
Lemma put_item_ok item w u w1 :
  put_item item w = (Ok u, w1) → no_float (PDict item) = true.
Proof.
  unfold put_item, bind, record_call, lift. simpl.
  destruct (Dynamo.serialize_item item) as [it |] eqn:Hs; [| done].
  intros _. by apply serialize_item_no_float in Hs.
Qed.

Lemma delete_item_ok key w u w1 :
  delete_item key w = (Ok u, w1) → no_float key = true.
Proof.
  unfold delete_item, bind, record_call, lift, Dynamo.key_of. simpl.
  destruct (Dynamo.serialize key) as [a |] eqn:Hs; [| done].
  intros _. by apply serialize_no_float in Hs.
Qed.

Lemma get_item_ok key w v w1 item :
  get_item key w = (Ok v, w1) → subscript v "Item" = Ok item →
  ∃ it : Dynamo.item, item = Dynamo.deserialize_item it.
Proof.
  unfold get_item, bind, record_call, read_table, lift, ret. simpl.
  destruct (Dynamo.key_of key) as [k |]; [| done].
  destruct (_ !! k) as [it |]; intros [= <- _]; [| done].
  intros [= <-]. by exists it.
Qed.

Lemma scan_ok w v w1 items :
  scan w = (Ok v, w1) → subscript v "Items" = Ok items →
  ∃ l : list Dynamo.item, items = PList (map Dynamo.deserialize_item l).
Proof.
  unfold scan, bind, record_call, read_table, ret. simpl.
  intros [= <- _]. destruct (last _); [destruct (_ <? _)%nat |];
    intros [= <-]; by eexists.
Qed.

Lemma lift_ok_inv {A} (r : result A) w a w1 : lift r w = (Ok a, w1) → r = Ok a.
Proof. by intros [= -> _]. Qed.

(** Every body is the [json.dumps] text of a dict or a list with no
    [float] in it. *)
Lemma handler_body ev rnd w r w' :
  run (lambda_handler ev rnd) w = (Ok r, w') →
  ∃ v, is_container v = true ∧ no_float v = true
       ∧ Json.dumps v = Ok (body r).
Proof.
  unfold run, lambda_handler. intros H.
  destruct (String.eqb (method ev) "OPTIONS").
  { injection H as <- _.
    by exists (PDict [("message", PStr "CORS preflight OK")]). }
  destruct (String.eqb (method ev) "GET").
  { apply bind_ok_inv in H as (result & w1 & Hscan & H).
    apply bind_ok_inv in H as (items & w2 & Hitems & H).
    apply lift_ok_inv in Hitems.
    destruct (scan_ok _ _ _ _ Hscan Hitems) as [l ->].
    apply lift_response_inv in H as (_ & _ & Hd).
    exists (PList (map Dynamo.deserialize_item l)).
    split; [done |]. split; [apply no_float_deserialize_items | done]. }
  destruct (String.eqb (method ev) "POST").
  { apply bind_ok_inv in H as (data & w1 & _ & H).
    apply bind_ok_inv in H as (title & w2 & _ & H).
    apply bind_ok_inv in H as (u & w3 & Hput & H).
    apply put_item_ok in Hput.
    apply lift_response_inv in H as (_ & _ & Hd).
    by eexists (PDict _). }
  destruct (String.eqb (method ev) "PUT").
  { apply bind_ok_inv in H as (data & w1 & _ & H).
    apply bind_ok_inv in H as (id & w2 & _ & H).
    apply bind_ok_inv in H as (val & w3 & _ & H).
    apply bind_ok_inv in H as (u & w4 & _ & H).
    apply bind_ok_inv in H as (id' & w5 & _ & H).
    apply bind_ok_inv in H as (updated & w6 & Hget & H).
    apply bind_ok_inv in H as (item & w7 & Hitem & H).
    apply lift_ok_inv in Hitem.
    destruct (get_item_ok _ _ _ _ _ Hget Hitem) as [it ->].
    apply lift_response_inv in H as (_ & _ & Hd).
    exists (Dynamo.deserialize_item it).
    split; [done |]. split; [apply no_float_deserialize_item | done]. }
  destruct (String.eqb (method ev) "DELETE").
  { apply bind_ok_inv in H as (data & w1 & _ & H).
    apply bind_ok_inv in H as (id & w2 & Hid & H).
    apply bind_ok_inv in H as (u & w3 & Hdel & H).
    apply bind_ok_inv in H as (id' & w4 & Hid' & H).
    apply lift_ok_inv in Hid, Hid'. rewrite Hid in Hid'. injection Hid' as <-.
    apply delete_item_ok in Hdel.
    apply lift_response_inv in H as (_ & _ & Hd).
    exists (PDict [("message", PStr "Deleted"); ("id", id)]).
    split; [done |]. split; [| done]. simpl. by rewrite Hdel. }
  apply lift_response_inv in H as (_ & _ & Hd).
  by exists (PDict [("error", PStr "Unsupported method")]).
Qed.

(** * The claims *)

(** C1: a POST request whose body carries a title (a string, as the data
    model has it) makes the handler build the item
    [{id, title, completed: False}] with [id = str(uuid4())], write it with
    one [put_item] call and answer 200 with the JSON text of that very item;
    no read of the table is made.  The identifier carries the 122 free bits
    of the 128-bit draw: another draw gives the same identifier exactly when
    it agrees on those bits. *)
Theorem C1_create ev rnd w data t :
  method ev = "POST" → body_of ev = Parsed data →
  subscript data "title" = Ok (PStr t) →
  0 <= rnd < 2 ^ 128 →
  let id := Uuid.str (Uuid.uuid4 rnd) in
  let item := [("id", PStr id); ("title", PStr t); ("completed", PBool false)] in
  let stored := [("id", Dynamo.AttrS id); ("title", Dynamo.AttrS t);
                 ("completed", Dynamo.AttrBool false)] in
  ∃ text,
    Json.dumps (PDict item) = Ok text
    ∧ Dynamo.serialize_item item = Ok stored
    ∧ run (lambda_handler ev rnd) w =
        (Ok (Response 200 cors_headers text),
         World (<[id := stored]> (table w)) (calls w ++ [CallPutItem item]))
    ∧ (∀ rnd', 0 <= rnd' < 2 ^ 128 →
         Uuid.str (Uuid.uuid4 rnd') = id
         ↔ Z.land rnd' Uuid.free_bits = Z.land rnd Uuid.free_bits)
    ∧ Uuid.popcount 128 Uuid.free_bits = 122%nat.
Proof.
  intros Hm Hb Ht Hr id item stored.
  eexists. split; [reflexivity |]. split; [reflexivity |]. split.
  - by rewrite (run_post ev rnd w data t).
  - split; [| apply UuidFacts.free_bits_count].
    intros rnd' Hr'. by apply UuidFacts.same_id.
Qed.

Lemma C1_create_witness :
  let ev := Event "POST" "/todos" (Parsed (PDict [("title", PStr "Buy milk")])) in
  ∃ text,
    (run (lambda_handler ev 7) (World ∅ [])).1 = Ok (Response 200 cors_headers text).
Proof.
  intros ev.
  destruct (C1_create ev 7 (World ∅ []) (PDict [("title", PStr "Buy milk")])
              "Buy milk" eq_refl eq_refl eq_refl ltac:(lia))
    as (text & _ & _ & H & _).
  exists text. by rewrite H.
Defined.

(** C2: a PUT request whose body carries an id and a completed flag (a
    string and a boolean, as the data model has them) writes with one
    [update_item] call that sets [completed] on the item stored under the
    id: every other attribute of that item and every other item are as
    before.  The answer is built from the item that a [get_item] call made
    after the write finds under the id, not from the request. *)
Theorem C2_update ev rnd w data k b :
  method ev = "PUT" → body_of ev = Parsed data →
  subscript data "id" = Ok (PStr k) →
  subscript data "completed" = Ok (PBool b) →
  let out := run (lambda_handler ev rnd) w in
  ∃ it' : Dynamo.item,
    table out.2 !! k = Some it'
    ∧ dict_get it' "completed" = Some (Dynamo.AttrBool b)
    ∧ (∀ (it : Dynamo.item) a, table w !! k = Some it → a ≠ "completed" →
         dict_get it' a = dict_get it a)
    ∧ (∀ k', k' ≠ k → table out.2 !! k' = table w !! k')
    ∧ calls out.2 =
        (calls w ++ [CallUpdateItem (PStr k) (PBool b); CallGetItem (PStr k)])%list
    ∧ out.1 = response 200 (Dynamo.deserialize_item it')
    ∧ (Dynamo.item_json_safe it' = true →
         ∃ text, Json.dumps (Dynamo.deserialize_item it') = Ok text
                 ∧ out.1 = Ok (Response 200 cors_headers text)).
Proof.
  intros Hm Hb Hk Hc out. subst out.
  rewrite (run_put ev rnd w data k b) by done. cbn [fst snd table calls].
  exists (updated_item w k b). split; [apply lookup_insert_eq |].
  split.
  { unfold updated_item. destruct (table w !! k); [| done].
    apply dict_get_set_attr_eq. }
  split.
  { intros it a Hit Ha. unfold updated_item. rewrite Hit.
    by apply dict_get_set_attr_ne. }
  split; [intros k' Hk'; by apply lookup_insert_ne |].
  split; [done |]. split; [done |].
  intros Hs. destruct (response_ok 200 _ (dumps_item_safe _ Hs)) as (text & H1 & H2).
  by exists text.
Qed.

Lemma C2_update_witness :
  let ev := Event "PUT" "/todos"
              (Parsed (PDict [("id", PStr "a"); ("completed", PBool true)])) in
  let w := World {[ "a" := [("id", Dynamo.AttrS "a"); ("title", Dynamo.AttrS "Buy milk");
                            ("completed", Dynamo.AttrBool false)] ]} [] in
  ∃ it', table (run (lambda_handler ev 0) w).2 !! "a" = Some it'
         ∧ dict_get it' "title" = Some (Dynamo.AttrS "Buy milk")
         ∧ dict_get it' "completed" = Some (Dynamo.AttrBool true).
Proof.
  intros ev w.
  destruct (C2_update ev 0 w (PDict [("id", PStr "a"); ("completed", PBool true)])
              "a" true eq_refl eq_refl eq_refl eq_refl)
    as (it' & H1 & H2 & H3 & _).
  exists it'. split; [exact H1 |]. split; [| exact H2].
  rewrite (H3 [("id", Dynamo.AttrS "a"); ("title", Dynamo.AttrS "Buy milk");
               ("completed", Dynamo.AttrBool false)] "title"); [reflexivity | | done].
  apply lookup_singleton_eq.
Defined.

(** C3: a DELETE request whose body carries an id (a string) makes one
    [delete_item] call and no other call on the table, whether or not an
    item is stored under the id; it answers 200 with
    [{"message": "Deleted", "id": id}], and no item is stored under the id
    afterwards. *)
Theorem C3_delete ev rnd w data k :
  method ev = "DELETE" → body_of ev = Parsed data →
  subscript data "id" = Ok (PStr k) →
  ∃ text,
    Json.dumps (PDict [("message", PStr "Deleted"); ("id", PStr k)]) = Ok text
    ∧ run (lambda_handler ev rnd) w =
        (Ok (Response 200 cors_headers text),
         World (delete k (table w)) (calls w ++ [CallDeleteItem (PStr k)]))
    ∧ delete k (table w) !! k = None.
Proof.
  intros Hm Hb Hk. eexists. split; [reflexivity |].
  split; [by rewrite (run_delete ev rnd w data k) | apply lookup_delete_eq].
Qed.

Lemma C3_delete_witness :
  let ev := Event "DELETE" "/todos" (Parsed (PDict [("id", PStr "nobody")])) in
  ∃ text,
    run (lambda_handler ev 0) (World ∅ []) =
      (Ok (Response 200 cors_headers text), World (delete "nobody" ∅) [CallDeleteItem (PStr "nobody")]).
Proof.
  intros ev.
  destruct (C3_delete ev 0 (World ∅ []) (PDict [("id", PStr "nobody")]) "nobody"
              eq_refl eq_refl eq_refl) as (text & _ & H & _).
  exists text. exact H.
Defined.

(** C4: whatever the request, the table and the draw, a response the
    handler returns carries exactly the three CORS headers, and its body is
    a JSON text: the [json.dumps] text of a dict or list that holds no
    [float] (and, since the dump succeeded, no [Decimal]). *)
Theorem C4_cors_and_json ev rnd w r w' :
  run (lambda_handler ev rnd) w = (Ok r, w') →
  headers r =
    [ ("Access-Control-Allow-Origin", "*");
      ("Access-Control-Allow-Methods", "OPTIONS,GET,POST,PUT,DELETE");
      ("Access-Control-Allow-Headers", "Content-Type") ]
  ∧ JsonText.text (body r)
  ∧ ∃ v, is_container v = true ∧ no_float v = true
         ∧ Json.dumps v = Ok (body r).
Proof.
  intros H.
  destruct (handler_body ev rnd w r w' H) as (v & Hc & Hf & Hd).
  split; [| split; [by apply (dumps_text v) | by exists v]].
  clear v Hc Hf Hd. unfold run, lambda_handler in H.
  assert (∀ status v w1, lift (response status v) w1 = (Ok r, w') →
            headers r = cors_headers) as Hresp.
  { intros status v w1 Hl. by apply lift_response_inv in Hl as (_ & Hh & _). }
  destruct (String.eqb (method ev) "OPTIONS"); [by injection H as <- _ |].
  repeat match type of H with
         | context [if ?b then _ else _] => destruct b
         end;
    repeat (apply bind_ok_inv in H as (? & ? & _ & H)); eauto.
Qed.

Lemma C4_cors_and_json_witness :
  ∃ r w', run (lambda_handler (Event "PATCH" "/todos" NoBody) 0) (World ∅ []) = (Ok r, w')
          ∧ headers r = cors_headers ∧ JsonText.text (body r).
Proof.
  eexists _, _. split; [reflexivity |].
  destruct (C4_cors_and_json (Event "PATCH" "/todos" NoBody) 0 (World ∅ []) _ _ eq_refl)
    as (Hh & Ht & _).
  by split.
Defined.

(** Not every string is a JSON text. *)
Example empty_is_no_json_text : ¬ JsonText.text "".
Proof. intros H. inversion H as [| | | s Hs | s | | s | | s]; discriminate. Qed.

Example bare_word_is_no_json_text : ¬ JsonText.text "Deleted".
Proof. intros H. inversion H as [| | | s Hs | s | | s | | s]; discriminate. Qed.

(** C5: a GET request makes one unconditional [scan] call and
    leaves the table as it is; the answer is built from the items of that
    call, the first page of the table in scan order, with no filter and no
    reordering.  The page is a prefix of the stored items, and it is all of
    them when they hold at most 1 MB.  The handler does not ask for a
    further page.  The status is 200 when no item of the page holds a
    number. *)
Theorem C5_list_first_page ev rnd w :
  method ev = "GET" →
  let all := stored_items (table w) in
  let shown := Dynamo.page 0 all in
  run (lambda_handler ev rnd) w
  = (response 200 (PList (map Dynamo.deserialize_item shown)),
     World (table w) (calls w ++ [CallScan]))
  ∧ (∀ it : Dynamo.item, it ∈ all ↔ ∃ k, table w !! k = Some it)
  ∧ (∃ rest, all = (shown ++ rest)%list)
  ∧ (Dynamo.total_size all <= Dynamo.page_limit → shown = all)
  ∧ (Forall (λ it, Dynamo.item_json_safe it = true) shown →
       ∃ text,
         Json.dumps (PList (map Dynamo.deserialize_item shown)) = Ok text
         ∧ response 200 (PList (map Dynamo.deserialize_item shown))
           = Ok (Response 200 cors_headers text)).
Proof.
  intros Hm all shown. split; [by apply run_get |].
  split; [intros it; apply elem_of_stored_items |].
  split; [apply page_prefix |].
  split; [intros H; by apply page_fits |].
  intros H. apply response_ok. by apply dumps_items_safe.
Qed.

Lemma C5_list_first_page_witness :
  let w := World {[ "a" := [("id", Dynamo.AttrS "a"); ("title", Dynamo.AttrS "Buy milk");
                            ("completed", Dynamo.AttrBool false)] ]} [] in
  run (lambda_handler (Event "GET" "/todos" NoBody) 0) w
  = (response 200 (PList (map Dynamo.deserialize_item (Dynamo.page 0 (stored_items (table w))))),
     World (table w) [CallScan]).
Proof.
  intros w.
  exact (proj1 (C5_list_first_page (Event "GET" "/todos" NoBody) 0 w eq_refl)).
Defined.

(** Each item of [crowded_table] counts 300 023 bytes: four of them
    already exceed the page limit. *)
Example todo_size : Dynamo.item_size (todo "todo-4") = 300023.
Proof. vm_compute. reflexivity. Qed.

(** The first page of [crowded_table]. *)
Lemma crowded_page_ids :
  map (λ it : Dynamo.item, dict_get it "id") (Dynamo.page 0 (stored_items crowded_table))
  = [ Some (Dynamo.AttrS "todo-3"); Some (Dynamo.AttrS "todo-5");
      Some (Dynamo.AttrS "todo-1"); Some (Dynamo.AttrS "todo-2") ].
Proof. vm_compute. reflexivity. Qed.

Lemma crowded_page_safe :
  forallb Dynamo.item_json_safe (Dynamo.page 0 (stored_items crowded_table)) = true.
Proof. vm_compute. reflexivity. Qed.

(** C5, counterexample: the answer to GET need not list every stored item.
    On a table of five items of about 300 KB each it is 200 with the JSON
    text of four items, and the item stored under [todo-4] is not one of
    them. *)
Lemma C5_counterexample :
  let ev := Event "GET" "/todos" NoBody in
  crowded_table !! "todo-4" = Some (todo "todo-4")
  ∧ ∃ (shown : list Dynamo.item) (text : string),
      (run (lambda_handler ev 0) (World crowded_table [])).1
      = Ok (Response 200 cors_headers text)
      ∧ Json.dumps (PList (map Dynamo.deserialize_item shown)) = Ok text
      ∧ map (λ it : Dynamo.item, dict_get it "id") shown
        = [ Some (Dynamo.AttrS "todo-3"); Some (Dynamo.AttrS "todo-5");
            Some (Dynamo.AttrS "todo-1"); Some (Dynamo.AttrS "todo-2") ].
Proof.
  intros ev. split; [reflexivity |].
  exists (Dynamo.page 0 (stored_items crowded_table)).
  pose proof crowded_page_safe as Hsafe.
  rewrite forallb_forall in Hsafe. setoid_rewrite <- list_elem_of_In in Hsafe.
  apply Forall_forall in Hsafe.
  destruct (response_ok 200 _ (dumps_items_safe _ Hsafe)) as (text & Hd & Hr).
  exists text. split; [| split; [exact Hd | exact crowded_page_ids]].
  rewrite (run_get ev 0 (World crowded_table [])) by reflexivity. exact Hr.
Qed.
(** C6: a PUT request whose body carries an id under which no
    item is stored is answered with 200: the [update_item] call adds an
    item that holds the id and the completed flag, the [get_item] call
    finds it, and the body is the JSON text of that item. *)
Theorem C6_update_creates ev rnd w data k b :
  method ev = "PUT" → body_of ev = Parsed data →
  subscript data "id" = Ok (PStr k) →
  subscript data "completed" = Ok (PBool b) →
  table w !! k = None →
  ∃ text,
    Json.dumps (PDict [("id", PStr k); ("completed", PBool b)]) = Ok text
    ∧ run (lambda_handler ev rnd) w =
        (Ok (Response 200 cors_headers text),
         World (<[k := [("id", Dynamo.AttrS k); ("completed", Dynamo.AttrBool b)]]> (table w))
               (calls w ++ [CallUpdateItem (PStr k) (PBool b); CallGetItem (PStr k)])).
Proof.
  intros Hm Hb Hk Hc Hnone.
  rewrite (run_put ev rnd w data k b) by done.
  unfold updated_item. rewrite Hnone.
  destruct b; eexists; (split; [reflexivity |]); reflexivity.
Qed.

Lemma C6_update_creates_witness :
  let ev := Event "PUT" "/todos"
              (Parsed (PDict [("id", PStr "missing"); ("completed", PBool true)])) in
  ∃ text,
    (run (lambda_handler ev 0) (World ∅ [])).1 = Ok (Response 200 cors_headers text).
Proof.
  intros ev.
  destruct (C6_update_creates ev 0 (World ∅ [])
              (PDict [("id", PStr "missing"); ("completed", PBool true)])
              "missing" true eq_refl eq_refl eq_refl eq_refl (lookup_empty _))
    as (text & _ & H).
  exists text. by rewrite H.
Defined.

(** C6, counterexample: a PUT request for an id that is not stored need not
    fail.  On the empty table the request for the id [missing] raises
    nothing and is answered with status 200. *)
Lemma C6_counterexample :
  let ev := Event "PUT" "/todos"
              (Parsed (PDict [("id", PStr "missing"); ("completed", PBool true)])) in
  (∅ : gmap string Dynamo.item) !! "missing" = None
  ∧ ∃ r w', run (lambda_handler ev 0) (World ∅ []) = (Ok r, w')
            ∧ statusCode r = 200.
Proof.
  intros ev. split; [reflexivity |]. eexists _, _. split; reflexivity.
Qed.

(** C7: an OPTIONS request, whatever its path and body, is answered with
    200, the three CORS headers and the body
    [{"message": "CORS preflight OK"}]; the world is untouched, so no call
    is made on the table. *)
Theorem C7_preflight ev rnd w :
  method ev = "OPTIONS" →
  ∃ text,
    Json.dumps (PDict [("message", PStr "CORS preflight OK")]) = Ok text
    ∧ run (lambda_handler ev rnd) w =
        (Ok {| statusCode := 200;
               headers :=
                 [ ("Access-Control-Allow-Origin", "*");
                   ("Access-Control-Allow-Methods", "OPTIONS,GET,POST,PUT,DELETE");
                   ("Access-Control-Allow-Headers", "Content-Type") ];
               body := text |},
         w).
Proof. intros H. by apply run_options. Qed.

Lemma C7_preflight_witness :
  ∃ text,
    run (lambda_handler (Event "OPTIONS" "/anything" (Rejected JSONDecodeError)) 0)
        (World ∅ [])
    = (Ok (Response 200 cors_headers text), World ∅ []).
Proof.
  destruct (C7_preflight (Event "OPTIONS" "/anything" (Rejected JSONDecodeError)) 0
              (World ∅ []) eq_refl) as (text & _ & H).
  by exists text.
Defined.

(** C8: a request whose method is none of OPTIONS, GET, POST, PUT and
    DELETE is answered with 400 and the body
    [{"error": "Unsupported method"}]; the world is untouched, so no call is
    made on the table. *)
Theorem C8_unsupported ev rnd w :
  method ev ∉ supported_methods →
  ∃ text,
    Json.dumps (PDict [("error", PStr "Unsupported method")]) = Ok text
    ∧ run (lambda_handler ev rnd) w = (Ok (Response 400 cors_headers text), w).
Proof. intros H. by apply run_unsupported. Qed.

Lemma C8_unsupported_witness :
  ∃ text,
    run (lambda_handler (Event "PATCH" "/todos" NoBody) 0) (World ∅ [])
    = (Ok (Response 400 cors_headers text), World ∅ []).
Proof.
  destruct (C8_unsupported (Event "PATCH" "/todos" NoBody) 0 (World ∅ [])) as (text & _ & H).
  - unfold supported_methods. rewrite !not_elem_of_cons.
    repeat split; [discriminate .. | apply not_elem_of_nil].
  - by exists text.
Defined.

(** C9: a well-formed POST, PUT or DELETE request makes exactly one write
    call on the table, for one key (the generated id or the id of the
    body), and every other key holds what it held.  After POST the key
    holds the new item; after PUT it holds the former item with
    [completed] set (a new item of id and [completed] when none was
    stored); after DELETE it holds nothing.  An OPTIONS request makes no
    call and a GET request makes its one [scan] call: both leave the table
    as it is. *)
Theorem C9_one_write ev rnd w :
  let out := run (lambda_handler ev rnd) w in
  (method ev = "OPTIONS" → out.2 = w)
  ∧ (method ev = "GET" → out.2 = World (table w) (calls w ++ [CallScan]))
  ∧ (∀ data t, method ev = "POST" → body_of ev = Parsed data →
       subscript data "title" = Ok (PStr t) →
       let id := Uuid.str (Uuid.uuid4 rnd) in
       calls out.2 =
         (calls w ++ [CallPutItem [("id", PStr id); ("title", PStr t);
                                   ("completed", PBool false)]])%list
       ∧ table out.2 !! id
         = Some [("id", Dynamo.AttrS id); ("title", Dynamo.AttrS t);
                 ("completed", Dynamo.AttrBool false)]
       ∧ ∀ k', k' ≠ id → table out.2 !! k' = table w !! k')
  ∧ (∀ data k b, method ev = "PUT" → body_of ev = Parsed data →
       subscript data "id" = Ok (PStr k) →
       subscript data "completed" = Ok (PBool b) →
       calls out.2 =
         (calls w ++ [CallUpdateItem (PStr k) (PBool b); CallGetItem (PStr k)])%list
       ∧ (∃ it' : Dynamo.item,
            table out.2 !! k = Some it'
            ∧ dict_get it' "completed" = Some (Dynamo.AttrBool b)
            ∧ (∀ (it : Dynamo.item) a, table w !! k = Some it → a ≠ "completed" →
                 dict_get it' a = dict_get it a)
            ∧ (table w !! k = None →
                 it' = [("id", Dynamo.AttrS k); ("completed", Dynamo.AttrBool b)]))
       ∧ ∀ k', k' ≠ k → table out.2 !! k' = table w !! k')
  ∧ (∀ data k, method ev = "DELETE" → body_of ev = Parsed data →
       subscript data "id" = Ok (PStr k) →
       calls out.2 = (calls w ++ [CallDeleteItem (PStr k)])%list
       ∧ table out.2 !! k = None
       ∧ ∀ k', k' ≠ k → table out.2 !! k' = table w !! k').
Proof.
  intros out. subst out. split; [| split; [| split; [| split]]].
  - intros Hm. by destruct (run_options ev rnd w Hm) as (text & _ & ->).
  - intros Hm. by rewrite run_get.
  - intros data t Hm Hb Ht id. rewrite (run_post ev rnd w data t) by done.
    cbn [snd table calls]. split; [done |]. split; [apply lookup_insert_eq |].
    intros k' Hk'. by apply lookup_insert_ne.
  - intros data k b Hm Hb Hk Hc. rewrite (run_put ev rnd w data k b) by done.
    cbn [snd table calls]. split; [done |]. split.
    + exists (updated_item w k b). split; [apply lookup_insert_eq |].
      unfold updated_item. split; [| split].
      * destruct (table w !! k); [apply dict_get_set_attr_eq | done].
      * intros it a Hit Ha. rewrite Hit. by apply dict_get_set_attr_ne.
      * by intros ->.
    + intros k' Hk'. by apply lookup_insert_ne.
  - intros data k Hm Hb Hk. rewrite (run_delete ev rnd w data k) by done.
    cbn [snd table calls]. split; [done |]. split; [apply lookup_delete_eq |].
    intros k' Hk'. by apply lookup_delete_ne.
Qed.

Lemma C9_one_write_witness :
  let ev := Event "DELETE" "/todos" (Parsed (PDict [("id", PStr "a")])) in
  let w := World {[ "a" := [("id", Dynamo.AttrS "a")]; "b" := [("id", Dynamo.AttrS "b")] ]} [] in
  table (run (lambda_handler ev 0) w).2 !! "a" = None
  ∧ table (run (lambda_handler ev 0) w).2 !! "b" = Some [("id", Dynamo.AttrS "b")].
Proof.
  intros ev w.
  destruct (C9_one_write ev 0 w) as (_ & _ & _ & _ & H).
  destruct (H (PDict [("id", PStr "a")]) "a" eq_refl eq_refl eq_refl)
    as (_ & Hgone & Hframe).
  split; [exact Hgone |].
  transitivity (table w !! "b"); [apply Hframe; discriminate | reflexivity].
Defined.

(** C9, counterexample: a DELETE or a PUT need not change any item.  On a
    table that holds one completed item under [a], a DELETE for the id
    [nobody] and a PUT that sets [completed] of [a] to [true] are both
    answered with 200 and leave the table exactly as it was. *)
Lemma C9_counterexample :
  let w := World {[ "a" := [("id", Dynamo.AttrS "a"); ("title", Dynamo.AttrS "Buy milk");
                            ("completed", Dynamo.AttrBool true)] ]} [] in
  let del := Event "DELETE" "/todos" (Parsed (PDict [("id", PStr "nobody")])) in
  let put := Event "PUT" "/todos"
               (Parsed (PDict [("id", PStr "a"); ("completed", PBool true)])) in
  (is_ok (run (lambda_handler del 0) w).1 = true
   ∧ table (run (lambda_handler del 0) w).2 = table w)
  ∧ (is_ok (run (lambda_handler put 0) w).1 = true
     ∧ table (run (lambda_handler put 0) w).2 = table w).
Proof. intros w del put. repeat split; vm_compute; reflexivity. Qed.

(** The supported methods are written in upper case. *)
Lemma upper_supported m : m ∈ supported_methods → upper m = m.
Proof.
  unfold supported_methods. rewrite !elem_of_cons, elem_of_nil.
  intros [-> | [-> | [-> | [-> | [-> | []]]]]]; reflexivity.
Qed.

(** C10: the dispatch compares the method with [==]: a method that is a
    supported one up to the case of its letters, but not letter for letter
    (such as [get] or [Post]), is answered with 400 and the body
    [{"error": "Unsupported method"}], and the world is untouched. *)
Theorem C10_case_sensitive ev rnd w :
  upper (method ev) ∈ supported_methods →
  method ev ≠ upper (method ev) →
  ∃ text,
    Json.dumps (PDict [("error", PStr "Unsupported method")]) = Ok text
    ∧ run (lambda_handler ev rnd) w = (Ok (Response 400 cors_headers text), w).
Proof.
  intros Hup Hne. apply run_unsupported.
  intros Hin. apply Hne. symmetry. by apply upper_supported.
Qed.

Lemma C10_case_sensitive_witness :
  ∃ text,
    run (lambda_handler (Event "get" "/todos" NoBody) 0) (World ∅ [])
    = (Ok (Response 400 cors_headers text), World ∅ [])
    ∧ run (lambda_handler (Event "Post" "/todos" (Parsed (PDict [("title", PStr "x")]))) 0)
          (World ∅ [])
      = (Ok (Response 400 cors_headers text), World ∅ []).
Proof.
  destruct (C10_case_sensitive (Event "get" "/todos" NoBody) 0 (World ∅ []))
    as (text & Hd & H1).
  - unfold supported_methods. cbn. rewrite !elem_of_cons. auto.
  - discriminate.
  - destruct (C10_case_sensitive
                (Event "Post" "/todos" (Parsed (PDict [("title", PStr "x")]))) 0 (World ∅ []))
      as (text' & Hd' & H2).
    + unfold supported_methods. cbn. rewrite !elem_of_cons. auto.
    + discriminate.
    + exists text. split; [exact H1 |]. rewrite H2. congruence.
Defined.

(** * Further properties of the handler *)

(** ** Requests that fail before the table is reached *)

(** X1: a POST, PUT or DELETE request whose event has no body, or whose
    body [json.loads] rejects, raises that very exception; no call is made
    on the table. *)
Theorem X1_unreadable_body ev rnd w e :
  method ev ∈ body_methods → loads_body ev = Raise e →
  run (lambda_handler ev rnd) w = (Raise e, w).
Proof.
  unfold body_methods. rewrite !elem_of_cons, elem_of_nil.
  intros [Hm | [Hm | [Hm | []]]] Hb.
  - rewrite handler_post by done. unfold run, bind, lift. by rewrite Hb.
  - rewrite handler_put by done. unfold run, bind, lift. by rewrite Hb.
  - rewrite handler_delete by done. unfold run, bind, lift. by rewrite Hb.
Qed.

Lemma X1_unreadable_body_witness :
  run (lambda_handler (Event "POST" "/todos" NoBody) 0) (World ∅ [])
  = (Raise (KeyError "body"), World ∅ []).
Proof.
  apply (X1_unreadable_body (Event "POST" "/todos" NoBody) 0 (World ∅ [])
           (KeyError "body")); [| reflexivity].
  unfold body_methods. rewrite !elem_of_cons. auto.
Defined.

(** X2: when the body is a JSON object without a field the branch reads,
    the handler raises [KeyError] for that field and makes no call on the
    table: [title] for POST, [id] for PUT and DELETE, [completed] for a PUT
    that has an [id]. *)
Theorem X2_missing_field ev rnd w d :
  body_of ev = Parsed (PDict d) →
  (method ev = "POST" → dict_get d "title" = None →
     run (lambda_handler ev rnd) w = (Raise (KeyError "title"), w))
  ∧ (method ev = "PUT" → dict_get d "id" = None →
       run (lambda_handler ev rnd) w = (Raise (KeyError "id"), w))
  ∧ (method ev = "PUT" → is_Some (dict_get d "id") →
       dict_get d "completed" = None →
       run (lambda_handler ev rnd) w = (Raise (KeyError "completed"), w))
  ∧ (method ev = "DELETE" → dict_get d "id" = None →
       run (lambda_handler ev rnd) w = (Raise (KeyError "id"), w)).
Proof.
  intros Hb. repeat split.
  - intros Hm Hd. rewrite handler_post by done.
    unfold run, bind, lift, loads_body, subscript. by rewrite Hb, Hd.
  - intros Hm Hd. rewrite handler_put by done.
    unfold run, bind, lift, loads_body, subscript. by rewrite Hb, Hd.
  - intros Hm [v Hv] Hd. rewrite handler_put by done.
    unfold run, bind, lift, loads_body, subscript. by rewrite Hb, Hv, Hd.
  - intros Hm Hd. rewrite handler_delete by done.
    unfold run, bind, lift, loads_body, subscript. by rewrite Hb, Hd.
Qed.

Lemma X2_missing_field_witness :
  run (lambda_handler
         (Event "PUT" "/todos" (Parsed (PDict [("id", PStr "a")]))) 0) (World ∅ [])
  = (Raise (KeyError "completed"), World ∅ []).
Proof.
  apply (X2_missing_field
           (Event "PUT" "/todos" (Parsed (PDict [("id", PStr "a")]))) 0 (World ∅ [])
           [("id", PStr "a")] eq_refl); [reflexivity | by eexists | reflexivity].
Defined.

(** X3: when the body parses to something that is not a JSON object (a
    list, a string, a number, [null]), a POST, PUT or DELETE request raises
    [TypeError] and makes no call on the table. *)
Theorem X3_body_not_object ev rnd w data :
  method ev ∈ body_methods → body_of ev = Parsed data →
  (∀ d, data ≠ PDict d) →
  ∃ what, run (lambda_handler ev rnd) w = (Raise (TypeError what), w).
Proof.
  unfold body_methods. rewrite !elem_of_cons, elem_of_nil.
  intros Hm Hb Hd.
  assert (∀ key, subscript data key = Raise (TypeError "subscript")) as Hs.
  { intros key. destruct data; try done. by destruct (Hd d). }
  exists "subscript". destruct Hm as [Hm | [Hm | [Hm | []]]].
  - rewrite handler_post by done. unfold run, bind, lift, loads_body. by rewrite Hb, Hs.
  - rewrite handler_put by done. unfold run, bind, lift, loads_body. by rewrite Hb, Hs.
  - rewrite handler_delete by done. unfold run, bind, lift, loads_body. by rewrite Hb, Hs.
Qed.

Lemma X3_body_not_object_witness :
  ∃ what,
    run (lambda_handler (Event "DELETE" "/todos" (Parsed (PList [PStr "a"]))) 0)
        (World ∅ [])
    = (Raise (TypeError what), World ∅ []).
Proof.
  apply (X3_body_not_object (Event "DELETE" "/todos" (Parsed (PList [PStr "a"]))) 0
           (World ∅ []) (PList [PStr "a"])); [| reflexivity | discriminate].
  unfold body_methods. rewrite !elem_of_cons. auto.
Defined.
(** ** What any request can do to the world *)

Lemma quiet_lift {A} (r : result A) : quiet (lift r).
Proof. done. Qed.

Lemma quiet_ret {A} (a : A) : quiet (ret a).
Proof. done. Qed.

Lemma quiet_bind {A B} (m : M A) (k : A → M B) :
  quiet m → (∀ a, quiet (k a)) → quiet (bind m k).
Proof.
  intros Hm Hk w. unfold bind. specialize (Hm w).
  destruct (m w) as [[a | e] w1]; simpl in *; [| done].
  by rewrite Hk.
Qed.

Lemma quiet_one_key {A} (m : M A) : quiet m → one_key m.
Proof. intros H w. exists "". intros k' _. by rewrite H. Qed.

Lemma one_key_bind_l {A B} (m : M A) (k : A → M B) :
  one_key m → (∀ a, quiet (k a)) → one_key (bind m k).
Proof.
  intros Hm Hk w. unfold bind. destruct (Hm w) as [key Hkey].
  exists key. destruct (m w) as [[a | e] w1]; simpl in *; [| done].
  by rewrite Hk.
Qed.

Lemma one_key_bind_r {A B} (m : M A) (k : A → M B) :
  quiet m → (∀ a, one_key (k a)) → one_key (bind m k).
Proof.
  intros Hm Hk w. unfold bind. specialize (Hm w).
  destruct (m w) as [[a | e] w1]; simpl in *.
  - destruct (Hk a w1) as [key Hkey]. exists key. by rewrite <- Hm.
  - exists "". intros k' _. by rewrite Hm.
Qed.

Lemma quiet_scan : quiet scan.
Proof. done. Qed.

Lemma quiet_get_item key : quiet (get_item key).
Proof.
  intros w. unfold get_item, bind, record_call, read_table, lift, ret. simpl.
  destruct (Dynamo.key_of key); [| done]. by destruct (_ !! _).
Qed.

Lemma one_key_put_item item : one_key (put_item item).
Proof.
  intros w. unfold put_item, bind, record_call, modify_table, lift. simpl.
  destruct (Dynamo.serialize_item item) as [it |]; [| by exists ""].
  destruct (dict_get it "id") as [[k | | | | |] |]; try by exists "".
  exists k. intros k' Hk'. by apply lookup_insert_ne.
Qed.

Lemma one_key_update_item key value : one_key (update_item key value).
Proof.
  intros w. unfold update_item, bind, record_call, modify_table, lift. simpl.
  destruct (Dynamo.key_of key) as [k |]; [| by exists ""].
  destruct (Dynamo.serialize value) as [a |]; [| by exists ""].
  exists k. intros k' Hk'. simpl.
  destruct (table w !! k); by apply lookup_insert_ne.
Qed.

Lemma one_key_delete_item key : one_key (delete_item key).
Proof.
  intros w. unfold delete_item, bind, record_call, modify_table, lift. simpl.
  destruct (Dynamo.key_of key) as [k |]; [| by exists ""].
  exists k. intros k' Hk'. by apply lookup_delete_ne.
Qed.

Ltac quiet_steps :=
  repeat first
    [ apply quiet_lift | apply quiet_ret | apply quiet_scan | apply quiet_get_item
    | apply quiet_bind; [| intros ?] ].

(** X4: whatever the request, well-formed or not, and whether the handler
    returns or raises, the table afterwards differs from the table before
    under one key at most. *)
Theorem X4_one_key_at_most ev rnd w :
  ∃ k, ∀ k', k' ≠ k →
    table (run (lambda_handler ev rnd) w).2 !! k' = table w !! k'.
Proof.
  revert w. change (one_key (lambda_handler ev rnd)). unfold lambda_handler.
  destruct (String.eqb (method ev) "OPTIONS"); [apply quiet_one_key; quiet_steps |].
  destruct (String.eqb (method ev) "GET"); [apply quiet_one_key; quiet_steps |].
  destruct (String.eqb (method ev) "POST").
  { do 2 (apply one_key_bind_r; [quiet_steps | intros ?]).
    apply one_key_bind_l; [apply one_key_put_item | intros ?; quiet_steps]. }
  destruct (String.eqb (method ev) "PUT").
  { do 3 (apply one_key_bind_r; [quiet_steps | intros ?]).
    apply one_key_bind_l; [apply one_key_update_item | intros ?; quiet_steps]. }
  destruct (String.eqb (method ev) "DELETE").
  { do 2 (apply one_key_bind_r; [quiet_steps | intros ?]).
    apply one_key_bind_l; [apply one_key_delete_item | intros ?; quiet_steps]. }
  apply quiet_one_key; quiet_steps.
Qed.

Lemma appends_lift {A} (r : result A) : appends 0 (lift r).
Proof. intros w. exists []. by rewrite app_nil_r. Qed.

Lemma appends_ret {A} (a : A) : appends 0 (ret a).
Proof. intros w. exists []. by rewrite app_nil_r. Qed.

Lemma appends_bind {A B} n1 n2 (m : M A) (k : A → M B) :
  appends n1 m → (∀ a, appends n2 (k a)) → appends (n1 + n2) (bind m k).
Proof.
  intros Hm Hk w. unfold bind. destruct (Hm w) as (new1 & H1 & L1).
  destruct (m w) as [[a | e] w1]; simpl in *.
  - destruct (Hk a w1) as (new2 & H2 & L2). exists (new1 ++ new2)%list.
    rewrite H2, H1, <- app_assoc, length_app. split; [done | lia].
  - exists new1. split; [done | lia].
Qed.

Lemma appends_scan : appends 1 scan.
Proof. intros w. by exists [CallScan]. Qed.

Lemma appends_get_item key : appends 1 (get_item key).
Proof.
  intros w. exists [CallGetItem key]. split; [| done].
  unfold get_item, bind, record_call, read_table, lift, ret. simpl.
  destruct (Dynamo.key_of key); [| done]. by destruct (_ !! _).
Qed.

Lemma appends_put_item item : appends 1 (put_item item).
Proof.
  intros w. exists [CallPutItem item]. split; [| done].
  unfold put_item, bind, record_call, modify_table, lift. simpl.
  destruct (Dynamo.serialize_item item) as [it |]; [| done].
  by destruct (dict_get it "id") as [[k | | | | |] |].
Qed.

Lemma appends_update_item key value : appends 1 (update_item key value).
Proof.
  intros w. exists [CallUpdateItem key value]. split; [| done].
  unfold update_item, bind, record_call, modify_table, lift. simpl.
  destruct (Dynamo.key_of key) as [k |]; [| done].
  by destruct (Dynamo.serialize value).
Qed.

Lemma appends_delete_item key : appends 1 (delete_item key).
Proof.
  intros w. exists [CallDeleteItem key]. split; [| done].
  unfold delete_item, bind, record_call, modify_table, lift. simpl.
  by destruct (Dynamo.key_of key).
Qed.

Lemma appends_le {A} n n' (m : M A) : (n <= n')%nat → appends n m → appends n' m.
Proof. intros Hn H w. destruct (H w) as (new & H1 & H2). exists new. split; [done | lia]. Qed.

Ltac appends_steps :=
  repeat first
    [ apply appends_lift | apply appends_ret | apply appends_scan
    | apply appends_get_item | apply appends_put_item
    | apply appends_update_item | apply appends_delete_item
    | eapply appends_bind; [| intros ?] ].

(** X5: whatever the request, the handler keeps the calls made on the table
    so far and makes two more at most (the PUT branch makes its
    [update_item] and its [get_item]; no branch loops or retries). *)
Theorem X5_two_calls_at_most ev rnd w :
  ∃ new,
    calls (run (lambda_handler ev rnd) w).2 = (calls w ++ new)%list
    ∧ (length new <= 2)%nat.
Proof.
  revert w. change (appends 2 (lambda_handler ev rnd)). unfold lambda_handler.
  repeat match goal with |- context [if ?b then _ else _] => destruct b end;
    (eapply appends_le; [| appends_steps]); simpl; lia.
Qed.
(** ** When [json.dumps] raises *)

Lemma is_ok_dumps_all l :
  is_ok (dumps_all l) = forallb (λ v, is_ok (Json.dumps v)) l.
Proof.
  induction l as [| v l IH]; simpl; [done |].
  destruct (Json.dumps v); simpl; [| done]. rewrite <- IH. by destruct (dumps_all l).
Qed.

Lemma is_ok_dumps_entries d :
  is_ok (dumps_entries d) = forallb (λ kv, is_ok (Json.dumps kv.2)) d.
Proof.
  induction d as [| [k v] d IH]; simpl; [done |].
  destruct (Json.dumps v); simpl; [| done]. rewrite <- IH. by destruct (dumps_entries d).
Qed.

(** What the table hands back can be dumped exactly when it holds no
    number. *)
Lemma is_ok_dumps_deserialize (a : Dynamo.attr) :
  is_ok (Json.dumps (Dynamo.deserialize a)) = Dynamo.json_safe a.
Proof.
  revert a. fix IH 1.
  intros a. destruct a as [s | d | b | | l | m]; try reflexivity.
  - clear IH. by destruct b.
  - cbn [Dynamo.deserialize Dynamo.json_safe].
    rewrite dumps_list, is_ok_rbind_ok, is_ok_dumps_all.
    induction l as [| x l IHl]; simpl; [done |]. by rewrite IH, IHl.
  - cbn [Dynamo.deserialize Dynamo.json_safe].
    rewrite dumps_dict, is_ok_rbind_ok, is_ok_dumps_entries.
    induction m as [| [k x] m IHm]; simpl; [done |]. by rewrite IH, IHm.
Qed.

Lemma is_ok_dumps_item (it : Dynamo.item) :
  is_ok (Json.dumps (Dynamo.deserialize_item it)) = Dynamo.item_json_safe it.
Proof. exact (is_ok_dumps_deserialize (Dynamo.AttrM it)). Qed.

Lemma is_ok_dumps_items (l : list Dynamo.item) :
  is_ok (Json.dumps (PList (map Dynamo.deserialize_item l)))
  = forallb Dynamo.item_json_safe l.
Proof.
  rewrite dumps_list, is_ok_rbind_ok, is_ok_dumps_all.
  induction l as [| it l IH]; cbn [map forallb]; [done |].
  by rewrite is_ok_dumps_item, IH.
Qed.

(** A value that [json.loads] returned can always be dumped. *)
Lemma dumps_loadable v : loadable v = true → is_ok (Json.dumps v) = true.
Proof.
  revert v. fix IH 1.
  intros v. destruct v as [| b | z | r | d | s | l | d]; intros H;
    try reflexivity; try discriminate H.
  - clear IH. by destruct b.
  - rewrite dumps_list, is_ok_rbind_ok, is_ok_dumps_all. simpl in H.
    induction l as [| x l IHl]; simpl in *; [done |].
    apply andb_prop in H as [Hx Hl]. by rewrite IH, IHl.
  - rewrite dumps_dict, is_ok_rbind_ok, is_ok_dumps_entries. simpl in H.
    induction d as [| [k x] d IHd]; simpl in *; [done |].
    apply andb_prop in H as [Hx Hd]. by rewrite IH, IHd.
Qed.

Lemma dumps_all_raise l e :
  dumps_all l = Raise e → ∃ v, v ∈ l ∧ Json.dumps v = Raise e.
Proof.
  induction l as [| v l IH]; simpl; [done |].
  destruct (Json.dumps v) as [s |] eqn:Hv; simpl.
  - destruct (dumps_all l) eqn:Hl; simpl; [done |]. intros [= <-].
    destruct (IH eq_refl) as (x & Hx & He). exists x. split; [by right | done].
  - intros [= <-]. exists v. split; [by left | done].
Qed.

Lemma dumps_entries_raise d e :
  dumps_entries d = Raise e → ∃ kv, kv ∈ d ∧ Json.dumps kv.2 = Raise e.
Proof.
  induction d as [| [k v] d IH]; simpl; [done |].
  destruct (Json.dumps v) as [s |] eqn:Hv; simpl.
  - destruct (dumps_entries d) eqn:Hl; simpl; [done |]. intros [= <-].
    destruct (IH eq_refl) as (x & Hx & He). exists x. split; [by right | done].
  - intros [= <-]. exists (k, v). split; [by left | done].
Qed.

Lemma dumps_raise v e : Json.dumps v = Raise e → e = decimal_error.
Proof.
  revert v e. fix IH 1.
  intros v e. destruct v as [| b | z | r | d | s | l | d]; try discriminate.
  - clear IH. by destruct b.
  - clear IH. by intros [= <-].
  - rewrite dumps_list. destruct (dumps_all l) eqn:Hl; simpl; [done |].
    intros [= <-]. clear -IH Hl.
    induction l as [| x l IHl]; simpl in Hl; [done |].
    destruct (Json.dumps x) eqn:Hx; simpl in Hl.
    + destruct (dumps_all l); simpl in Hl; [done |]. injection Hl as <-. by apply IHl.
    + injection Hl as <-. by apply (IH x).
  - rewrite dumps_dict. destruct (dumps_entries d) eqn:Hd; simpl; [done |].
    intros [= <-]. clear -IH Hd.
    induction d as [| [k x] d IHd]; simpl in Hd; [done |].
    destruct (Json.dumps x) eqn:Hx; simpl in Hd.
    + destruct (dumps_entries d); simpl in Hd; [done |]. injection Hd as <-. by apply IHd.
    + injection Hd as <-. by apply (IH x).
Qed.

Lemma response_raise status v e : response status v = Raise e → e = decimal_error.
Proof.
  unfold response. destruct (Json.dumps v) eqn:H; simpl; [done |].
  intros [= <-]. by apply dumps_raise in H.
Qed.

Lemma is_ok_response status v : is_ok (response status v) = is_ok (Json.dumps v).
Proof. unfold response. by destruct (Json.dumps v). Qed.
(** X6: a GET request returns a response exactly when no item of the
    scanned page holds a number; otherwise the [Decimal] that the table
    hands back makes [json.dumps] raise [TypeError].  Either way the table
    is left as it is. *)
Theorem X6_get_raises_on_numbers ev rnd w :
  method ev = "GET" →
  let out := run (lambda_handler ev rnd) w in
  is_ok out.1
  = forallb Dynamo.item_json_safe (Dynamo.page 0 (stored_items (table w)))
  ∧ (∀ e, out.1 = Raise e → e = decimal_error)
  ∧ table out.2 = table w.
Proof.
  intros Hm out. subst out. rewrite run_get by done. cbn [fst snd table].
  split; [by rewrite is_ok_response, is_ok_dumps_items |].
  split; [intros e; apply response_raise | done].
Qed.

Lemma X6_get_raises_on_numbers_witness :
  let w := World {[ "a" := [("id", Dynamo.AttrS "a"); ("priority", Dynamo.AttrN "1")] ]} [] in
  (run (lambda_handler (Event "GET" "/todos" NoBody) 0) w).1 = Raise decimal_error.
Proof.
  intros w.
  destruct (X6_get_raises_on_numbers (Event "GET" "/todos" NoBody) 0 w eq_refl)
    as (Hok & He & _).
  destruct (run (lambda_handler (Event "GET" "/todos" NoBody) 0) w).1 as [r | e] eqn:Hout.
  - discriminate Hok.
  - by rewrite (He e eq_refl).
Defined.

Lemma item_not_json_safe (it : Dynamo.item) name a :
  dict_get it name = Some a → Dynamo.json_safe a = false →
  Dynamo.item_json_safe it = false.
Proof.
  intros Hget Ha. induction it as [| [k x] it IH]; simpl in *; [done |].
  destruct (String.eqb k name).
  - injection Hget as ->. by rewrite Ha.
  - rewrite (IH Hget). apply andb_false_r.
Qed.

(** X7: a PUT request whose [completed] is an integer is not all or
    nothing: the [update_item] call stores the number, the [get_item] call
    reads it back as a [Decimal], and [json.dumps] then raises [TypeError].
    The handler returns no response although the table has changed. *)
Theorem X7_put_number_writes_then_raises ev rnd w data k z :
  method ev = "PUT" → body_of ev = Parsed data →
  subscript data "id" = Ok (PStr k) →
  subscript data "completed" = Ok (PInt z) →
  Z.abs z < 10 ^ 38 →
  ∃ it' : Dynamo.item,
    run (lambda_handler ev rnd) w
    = (Raise decimal_error,
       World (<[k := it']> (table w))
             (calls w ++ [CallUpdateItem (PStr k) (PInt z); CallGetItem (PStr k)]))
    ∧ dict_get it' "completed" = Some (Dynamo.AttrN (pretty z)).
Proof.
  intros Hm Hb Hk Hc Hz.
  set (a := Dynamo.AttrN (pretty z)).
  set (it' := match table w !! k with
              | Some it => Dynamo.set_attr "completed" a it
              | None => [("id", Dynamo.AttrS k); ("completed", a)]
              end).
  assert (dict_get it' "completed" = Some a) as Hget.
  { subst it'. destruct (table w !! k); [apply dict_get_set_attr_eq | done]. }
  exists it'. split; [| done].
  assert (response 200 (Dynamo.deserialize_item it') = Raise decimal_error) as Hresp.
  { destruct (response 200 (Dynamo.deserialize_item it')) as [r | e] eqn:Hr.
    - assert (is_ok (response 200 (Dynamo.deserialize_item it')) = true) as Hok
        by (by rewrite Hr).
      rewrite is_ok_response, is_ok_dumps_item in Hok.
      by rewrite (item_not_json_safe it' "completed" a Hget) in Hok.
    - by rewrite (response_raise _ _ _ Hr). }
  rewrite handler_put by done.
  unfold run, bind, lift, loads_body. rewrite Hb, Hk, Hc.
  unfold update_item, get_item, bind, lift, record_call, modify_table, read_table, ret.
  cbn [Dynamo.key_of Dynamo.serialize rbind fst snd table calls].
  apply Z.ltb_lt in Hz. rewrite Hz. cbn [fst snd table calls].
  rewrite <- app_assoc. fold a. subst it'.
  destruct (table w !! k) as [it |]; rewrite lookup_insert_eq; cbn [subscript dict_get String.eqb];
    simpl; by rewrite Hresp.
Qed.
Lemma X7_put_number_writes_then_raises_witness :
  let ev := Event "PUT" "/todos"
              (Parsed (PDict [("id", PStr "a"); ("completed", PInt 1)])) in
  ∃ it' : Dynamo.item,
    run (lambda_handler ev 0) (World ∅ [])
    = (Raise decimal_error,
       World (<["a" := it']> ∅)
             [CallUpdateItem (PStr "a") (PInt 1); CallGetItem (PStr "a")]).
Proof.
  intros ev.
  destruct (X7_put_number_writes_then_raises ev 0 (World ∅ [])
              (PDict [("id", PStr "a"); ("completed", PInt 1)]) "a" 1
              eq_refl eq_refl eq_refl eq_refl ltac:(reflexivity))
    as (it' & H & _).
  by exists it'.
Defined.

Lemma subscript_loadable data key v :
  loadable data = true → subscript data key = Ok v → loadable v = true.
Proof.
  destruct data as [| | | | | | | d]; try done. simpl. intros Hd.
  destruct (dict_get d key) as [x |] eqn:Hget; [| done]. intros [= <-].
  induction d as [| [k y] d IH]; simpl in *; [done |].
  apply andb_prop in Hd as [Hy Hd].
  destruct (String.eqb k key); [by injection Hget as -> | by apply IH].
Qed.

Lemma put_item_raise item w e w1 :
  put_item item w = (Raise e, w1) → table w1 = table w.
Proof.
  unfold put_item, bind, record_call, modify_table, lift. simpl.
  destruct (Dynamo.serialize_item item) as [it |]; [| by intros [= _ <-]].
  destruct (dict_get it "id") as [[k | | | | |] |]; by intros [= _ <-].
Qed.

Lemma delete_item_raise key w e w1 :
  delete_item key w = (Raise e, w1) → table w1 = table w.
Proof.
  unfold delete_item, bind, record_call, modify_table, lift. simpl.
  destruct (Dynamo.key_of key) as [k |]; by intros [= _ <-].
Qed.

(** X8: outside the PUT branch a request that raises leaves the table as it
    was: POST and DELETE raise before their write or not at all (the values
    they dump come from [json.loads]), GET and OPTIONS do not write. *)
Theorem X8_failure_leaves_table ev rnd w e w' :
  method ev ≠ "PUT" →
  (∀ data, body_of ev = Parsed data → loadable data = true) →
  run (lambda_handler ev rnd) w = (Raise e, w') →
  table w' = table w.
Proof.
  intros Hput Hload. unfold run, lambda_handler.
  destruct (String.eqb (method ev) "OPTIONS"); [done |].
  destruct (String.eqb (method ev) "GET").
  { intros H. pose proof (quiet_bind scan
      (λ result, items <- lift (subscript result "Items") ;; lift (response 200 items))
      quiet_scan ltac:(intros; quiet_steps) w) as Hq.
    by rewrite H in Hq. }
  destruct (String.eqb (method ev) "POST").
  { unfold bind at 1, lift at 1, loads_body.
    destruct (body_of ev) as [| e0 | data] eqn:Hb; try by intros [= _ <-].
    specialize (Hload data eq_refl).
    unfold bind at 1, lift at 1.
    destruct (subscript data "title") as [title |] eqn:Ht; [| by intros [= _ <-]].
    apply (subscript_loadable _ _ _ Hload) in Ht.
    unfold bind, lift.
    destruct (put_item _ w) as [[[] | e1] w1] eqn:Hp.
    - intros [= Hr _].
      assert (is_ok (response 200 (PDict
                [("id", PStr (Uuid.str (Uuid.uuid4 rnd))); ("title", title);
                 ("completed", PBool false)])) = true) as Hok.
      { rewrite is_ok_response. apply dumps_loadable. simpl. by rewrite Ht. }
      by rewrite Hr in Hok.
    - intros [= _ <-]. by apply put_item_raise in Hp. }
  destruct (String.eqb (method ev) "PUT") eqn:Hm;
    [by apply String.eqb_eq in Hm |].
  destruct (String.eqb (method ev) "DELETE"); [| done].
  unfold bind at 1, lift at 1, loads_body.
  destruct (body_of ev) as [| e0 | data] eqn:Hb; try by intros [= _ <-].
  specialize (Hload data eq_refl).
  unfold bind at 1, lift at 1.
  destruct (subscript data "id") as [id |] eqn:Hi; [| by intros [= _ <-]].
  pose proof (subscript_loadable _ _ _ Hload Hi) as Hid.
  unfold bind, lift.
  destruct (delete_item id w) as [[[] | e1] w1] eqn:Hp.
  - intros [= Hr _].
    assert (is_ok (response 200 (PDict [("message", PStr "Deleted"); ("id", id)]))
            = true) as Hok.
    { rewrite is_ok_response. apply dumps_loadable. simpl. by rewrite Hid. }
    by rewrite Hr in Hok.
  - intros [= _ <-]. by apply delete_item_raise in Hp.
Qed.

Lemma X8_failure_leaves_table_witness :
  let ev := Event "POST" "/todos" (Parsed (PDict [("title", PFloat "1.5")])) in
  ∃ e w', run (lambda_handler ev 0) (World ∅ []) = (Raise e, w') ∧ table w' = ∅.
Proof.
  intros ev.
  destruct (run (lambda_handler ev 0) (World ∅ [])) as [[r | e] w'] eqn:Hrun;
    [discriminate Hrun |].
  exists e, w'. split; [reflexivity |].
  apply (X8_failure_leaves_table ev 0 (World ∅ []) e w');
    [discriminate | by intros data [= <-] | exact Hrun].
Defined.
(** ** Requests in sequence *)

(** X9: an item created by POST is listed by a following GET: the GET is
    answered with 200 and the JSON text of a list that holds the id, the
    title and [completed: false] of the POST, as long as the table fits one
    scan page and no item stored before holds a number. *)
Theorem X9_post_then_get ev ev' rnd rnd' w data t :
  method ev = "POST" → body_of ev = Parsed data →
  subscript data "title" = Ok (PStr t) →
  method ev' = "GET" →
  (∀ k (it : Dynamo.item), table w !! k = Some it → Dynamo.item_json_safe it = true) →
  let w1 := (run (lambda_handler ev rnd) w).2 in
  Dynamo.total_size (stored_items (table w1)) <= Dynamo.page_limit →
  ∃ l text,
    (run (lambda_handler ev' rnd') w1).1 = Ok (Response 200 cors_headers text)
    ∧ Json.dumps (PList l) = Ok text
    ∧ PDict [("id", PStr (Uuid.str (Uuid.uuid4 rnd))); ("title", PStr t);
             ("completed", PBool false)] ∈ l.
Proof.
  intros Hm Hb Ht Hm' Hsafe w1 Hfit.
  assert (table w1
          = <[Uuid.str (Uuid.uuid4 rnd) :=
                [("id", Dynamo.AttrS (Uuid.str (Uuid.uuid4 rnd)));
                 ("title", Dynamo.AttrS t); ("completed", Dynamo.AttrBool false)]]>
              (table w)) as Htable.
  { subst w1. by rewrite (run_post ev rnd w data t). }
  assert (Forall (λ it, Dynamo.item_json_safe it = true) (stored_items (table w1)))
    as Hall.
  { apply Forall_forall. intros it Hit.
    apply elem_of_stored_items in Hit as [k Hk]. rewrite Htable in Hk.
    destruct (decide (Uuid.str (Uuid.uuid4 rnd) = k)) as [<- | Hne].
    - rewrite lookup_insert_eq in Hk. by injection Hk as <-.
    - rewrite lookup_insert_ne in Hk by done. by apply (Hsafe k). }
  destruct (response_ok 200 _ (dumps_items_safe _ Hall)) as (text & Hd & Hr).
  exists (map Dynamo.deserialize_item (stored_items (table w1))), text.
  split; [| split; [done |]].
  - rewrite run_get by done. cbn [fst]. by rewrite (page_fits _ 0) by lia.
  - apply list_elem_of_fmap.
    exists [("id", Dynamo.AttrS (Uuid.str (Uuid.uuid4 rnd))); ("title", Dynamo.AttrS t);
            ("completed", Dynamo.AttrBool false)].
    split; [done |]. apply elem_of_stored_items.
    exists (Uuid.str (Uuid.uuid4 rnd)). rewrite Htable. apply lookup_insert_eq.
Qed.

Lemma X9_post_then_get_witness :
  let ev := Event "POST" "/todos" (Parsed (PDict [("title", PStr "Buy milk")])) in
  let w1 := (run (lambda_handler ev 7) (World ∅ [])).2 in
  ∃ l text,
    (run (lambda_handler (Event "GET" "/todos" NoBody) 0) w1).1
    = Ok (Response 200 cors_headers text)
    ∧ Json.dumps (PList l) = Ok text
    ∧ PDict [("id", PStr (Uuid.str (Uuid.uuid4 7))); ("title", PStr "Buy milk");
             ("completed", PBool false)] ∈ l.
Proof.
  intros ev w1.
  apply (X9_post_then_get ev (Event "GET" "/todos" NoBody) 7 0 (World ∅ [])
           (PDict [("title", PStr "Buy milk")]) "Buy milk"
           eq_refl eq_refl eq_refl eq_refl).
  - intros k it Hk. cbn [table] in Hk. by rewrite lookup_empty in Hk.
  - vm_compute. discriminate.
Defined.

(** X10: a PUT for the id that a POST has just created answers with the
    same id and the title as posted, and with the [completed] of the PUT:
    the update does not touch the title. *)
Theorem X10_post_then_put ev ev' rnd rnd' w data t data' b :
  method ev = "POST" → body_of ev = Parsed data →
  subscript data "title" = Ok (PStr t) →
  let id := Uuid.str (Uuid.uuid4 rnd) in
  method ev' = "PUT" → body_of ev' = Parsed data' →
  subscript data' "id" = Ok (PStr id) →
  subscript data' "completed" = Ok (PBool b) →
  let w1 := (run (lambda_handler ev rnd) w).2 in
  ∃ text,
    Json.dumps (PDict [("id", PStr id); ("title", PStr t); ("completed", PBool b)])
    = Ok text
    ∧ (run (lambda_handler ev' rnd') w1).1 = Ok (Response 200 cors_headers text).
Proof.
  intros Hm Hb Ht id Hm' Hb' Hk' Hc' w1.
  rewrite (run_put ev' rnd' w1 data' id b) by done. cbn [fst].
  assert (updated_item w1 id b
          = [("id", Dynamo.AttrS id); ("title", Dynamo.AttrS t);
             ("completed", Dynamo.AttrBool b)]) as ->.
  { unfold updated_item. subst w1. rewrite (run_post ev rnd w data t) by done.
    cbn [snd table]. by rewrite lookup_insert_eq. }
  destruct b; eexists; (split; [reflexivity |]); reflexivity.
Qed.

Lemma X10_post_then_put_witness :
  let ev := Event "POST" "/todos" (Parsed (PDict [("title", PStr "Buy milk")])) in
  let id := Uuid.str (Uuid.uuid4 7) in
  let ev' := Event "PUT" "/todos"
               (Parsed (PDict [("id", PStr id); ("completed", PBool true)])) in
  ∃ text,
    Json.dumps (PDict [("id", PStr id); ("title", PStr "Buy milk");
                       ("completed", PBool true)]) = Ok text
    ∧ (run (lambda_handler ev' 0) (run (lambda_handler ev 7) (World ∅ [])).2).1
      = Ok (Response 200 cors_headers text).
Proof.
  intros ev id ev'.
  exact (X10_post_then_put ev ev' 7 0 (World ∅ [])
           (PDict [("title", PStr "Buy milk")]) "Buy milk"
           (PDict [("id", PStr id); ("completed", PBool true)]) true
           eq_refl eq_refl eq_refl eq_refl eq_refl eq_refl eq_refl).
Defined.

(** X11: after a DELETE for an id, the items a GET lists were all stored
    under other ids before the DELETE. *)
Theorem X11_delete_then_get ev ev' rnd rnd' w data k :
  method ev = "DELETE" → body_of ev = Parsed data →
  subscript data "id" = Ok (PStr k) →
  method ev' = "GET" →
  let w1 := (run (lambda_handler ev rnd) w).2 in
  ∃ shown : list Dynamo.item,
    (run (lambda_handler ev' rnd') w1).1
    = response 200 (PList (map Dynamo.deserialize_item shown))
    ∧ ∀ it, it ∈ shown → ∃ k', k' ≠ k ∧ table w !! k' = Some it.
Proof.
  intros Hm Hb Hk Hm' w1.
  exists (Dynamo.page 0 (stored_items (table w1))). split; [by rewrite run_get |].
  intros it Hit.
  destruct (page_prefix (stored_items (table w1)) 0) as [rest Hrest].
  assert (it ∈ stored_items (table w1)) as Hin
    by (rewrite Hrest; apply elem_of_app; by left).
  apply elem_of_stored_items in Hin as [k' Hk'].
  subst w1. rewrite (run_delete ev rnd w data k) in Hk' by done.
  cbn [snd table] in Hk'. apply lookup_delete_Some in Hk' as [Hne Hk'].
  by exists k'.
Qed.

Lemma X11_delete_then_get_witness :
  let ev := Event "DELETE" "/todos" (Parsed (PDict [("id", PStr "a")])) in
  let w := World {[ "a" := [("id", Dynamo.AttrS "a")] ]} [] in
  ∃ shown : list Dynamo.item,
    (run (lambda_handler (Event "GET" "/todos" NoBody) 0)
         (run (lambda_handler ev 0) w).2).1
    = response 200 (PList (map Dynamo.deserialize_item shown))
    ∧ ∀ it, it ∈ shown → ∃ k', k' ≠ "a" ∧ table w !! k' = Some it.
Proof.
  intros ev w.
  exact (X11_delete_then_get ev (Event "GET" "/todos" NoBody) 0 0 w
           (PDict [("id", PStr "a")]) "a" eq_refl eq_refl eq_refl eq_refl).
Defined.

(** X12: DELETE is idempotent: a second DELETE for the same id gets the
    answer of the first and leaves the table as the first left it. *)
Theorem X12_delete_twice ev rnd rnd' w data k :
  method ev = "DELETE" → body_of ev = Parsed data →
  subscript data "id" = Ok (PStr k) →
  let out1 := run (lambda_handler ev rnd) w in
  let out2 := run (lambda_handler ev rnd') out1.2 in
  out2.1 = out1.1 ∧ table out2.2 = table out1.2.
Proof.
  intros Hm Hb Hk out1 out2. subst out2 out1.
  rewrite !(run_delete ev _ _ data k) by done. cbn [fst snd table].
  split; [done | apply delete_delete_eq].
Qed.

Lemma X12_delete_twice_witness :
  let ev := Event "DELETE" "/todos" (Parsed (PDict [("id", PStr "a")])) in
  let w := World {[ "a" := [("id", Dynamo.AttrS "a")] ]} [] in
  let out1 := run (lambda_handler ev 0) w in
  let out2 := run (lambda_handler ev 0) out1.2 in
  out2.1 = out1.1 ∧ table out2.2 = table out1.2.
Proof.
  intros ev w.
  exact (X12_delete_twice ev 0 0 w (PDict [("id", PStr "a")]) "a"
           eq_refl eq_refl eq_refl).
Defined.

(** X13: a DELETE for the id that a POST has just created undoes the POST
    on the table, provided the generated id was not in use. *)
Theorem X13_post_then_delete ev ev' rnd rnd' w data t data' :
  method ev = "POST" → body_of ev = Parsed data →
  subscript data "title" = Ok (PStr t) →
  let id := Uuid.str (Uuid.uuid4 rnd) in
  table w !! id = None →
  method ev' = "DELETE" → body_of ev' = Parsed data' →
  subscript data' "id" = Ok (PStr id) →
  let w1 := (run (lambda_handler ev rnd) w).2 in
  table (run (lambda_handler ev' rnd') w1).2 = table w.
Proof.
  intros Hm Hb Ht id Hfresh Hm' Hb' Hk' w1. subst w1.
  rewrite (run_delete ev' rnd' _ data' id) by done.
  rewrite (run_post ev rnd w data t) by done. cbn [snd table].
  rewrite delete_insert_eq. by apply delete_id.
Qed.

Lemma X13_post_then_delete_witness :
  let ev := Event "POST" "/todos" (Parsed (PDict [("title", PStr "Buy milk")])) in
  let ev' := Event "DELETE" "/todos"
               (Parsed (PDict [("id", PStr (Uuid.str (Uuid.uuid4 7)))])) in
  table (run (lambda_handler ev' 0) (run (lambda_handler ev 7) (World ∅ [])).2).2 = ∅.
Proof.
  intros ev ev'.
  exact (X13_post_then_delete ev ev' 7 0 (World ∅ [])
           (PDict [("title", PStr "Buy milk")]) "Buy milk"
           (PDict [("id", PStr (Uuid.str (Uuid.uuid4 7)))])
           eq_refl eq_refl eq_refl (lookup_empty _) eq_refl eq_refl eq_refl).
Defined.

Lemma set_attr_set_attr name v1 v2 (it : Dynamo.item) :
  Dynamo.set_attr name v2 (Dynamo.set_attr name v1 it) = Dynamo.set_attr name v2 it.
Proof.
  induction it as [| [k a] it IH]; simpl.
  - by rewrite String.eqb_refl.
  - destruct (String.eqb k name) eqn:E; simpl; rewrite E; [done | by rewrite IH].
Qed.

(** X14: of two PUT requests for the same id the last one wins: the table
    is as if only the second had been made.  In particular a repeated PUT
    changes nothing. *)
Theorem X14_put_last_wins ev1 ev2 rnd1 rnd2 w data1 data2 k b1 b2 :
  method ev1 = "PUT" → body_of ev1 = Parsed data1 →
  subscript data1 "id" = Ok (PStr k) → subscript data1 "completed" = Ok (PBool b1) →
  method ev2 = "PUT" → body_of ev2 = Parsed data2 →
  subscript data2 "id" = Ok (PStr k) → subscript data2 "completed" = Ok (PBool b2) →
  let w1 := (run (lambda_handler ev1 rnd1) w).2 in
  run (lambda_handler ev2 rnd2) w1 =
    ((run (lambda_handler ev2 rnd2) w).1,
     World (table (run (lambda_handler ev2 rnd2) w).2)
           (calls w1 ++ [CallUpdateItem (PStr k) (PBool b2); CallGetItem (PStr k)])).
Proof.
  intros Hm1 Hb1 Hk1 Hc1 Hm2 Hb2 Hk2 Hc2 w1. subst w1.
  rewrite (run_put ev2 rnd2 _ data2 k b2) by done.
  rewrite (run_put ev2 rnd2 w data2 k b2) by done.
  rewrite (run_put ev1 rnd1 w data1 k b1) by done. cbn [fst snd table calls].
  assert (updated_item
            (World (<[k := updated_item w k b1]> (table w))
                   (calls w ++ [CallUpdateItem (PStr k) (PBool b1); CallGetItem (PStr k)]))
            k b2 = updated_item w k b2) as ->.
  { unfold updated_item. cbn [table]. rewrite lookup_insert_eq.
    destruct (table w !! k); [apply set_attr_set_attr | done]. }
  by rewrite insert_insert_eq.
Qed.

Lemma X14_put_last_wins_witness :
  let ev1 := Event "PUT" "/todos"
               (Parsed (PDict [("id", PStr "a"); ("completed", PBool true)])) in
  let ev2 := Event "PUT" "/todos"
               (Parsed (PDict [("id", PStr "a"); ("completed", PBool false)])) in
  let w := World {[ "a" := [("id", Dynamo.AttrS "a"); ("title", Dynamo.AttrS "Buy milk");
                            ("completed", Dynamo.AttrBool false)] ]} [] in
  table (run (lambda_handler ev2 0) (run (lambda_handler ev1 0) w).2).2
  = table (run (lambda_handler ev2 0) w).2.
Proof.
  intros ev1 ev2 w.
  rewrite (X14_put_last_wins ev1 ev2 0 0 w
             (PDict [("id", PStr "a"); ("completed", PBool true)])
             (PDict [("id", PStr "a"); ("completed", PBool false)]) "a" true false
             eq_refl eq_refl eq_refl eq_refl eq_refl eq_refl eq_refl eq_refl).
  reflexivity.
Defined.
(** ** The shape of a generated id *)

Lemma get_hex n i x :
  (i < n)%nat →
  String.get i (Uuid.hex n x)
  = Some (Json.hexdigit ((x / 16 ^ Z.of_nat (n - 1 - i)) mod 16)).
Proof.
  revert x. induction n as [| n IH]; intros x Hi; [lia |].
  cbn [Uuid.hex].
  destruct (decide (i = n)) as [-> | Hne].
  - pose proof (append_correct2 (Uuid.hex n (x / 16))
                  (String (Json.hexdigit (x mod 16)) "") 0) as H.
    rewrite UuidFacts.hex_length in H. simpl in H. rewrite <- H.
    replace (S n - 1 - n)%nat with 0%nat by lia. simpl. by rewrite Z.div_1_r.
  - rewrite <- append_correct1 by (rewrite UuidFacts.hex_length; lia).
    rewrite IH by lia. do 2 f_equal.
    replace (Z.of_nat (S n - 1 - i)) with (Z.succ (Z.of_nat (n - 1 - i))) by lia.
    rewrite Z.pow_succ_r, Z.div_div by lia. done.
Qed.

Lemma version_nibble r :
  0 <= r < 2 ^ 128 → (Uuid.uuid4 r / 16 ^ 19) mod 16 = 4.
Proof.
  intros H.
  change (16 ^ 19) with (2 ^ 76). change 16 with (2 ^ 4).
  rewrite <- Z.shiftr_div_pow2, <- Z.land_ones by lia.
  rewrite (UuidFacts.uuid4_bits r H), Z.shiftr_lor, Z.shiftr_land,
    Z.land_lor_distr_l, <- Z.land_assoc.
  change (Z.land (Z.shiftr Uuid.free_bits 76) (Z.ones 4)) with 0.
  by rewrite Z.land_0_r.
Qed.

Lemma variant_nibble r :
  0 <= r < 2 ^ 128 → 8 <= (Uuid.uuid4 r / 16 ^ 15) mod 16 <= 11.
Proof.
  intros H.
  change (16 ^ 15) with (2 ^ 60). change 16 with (2 ^ 4).
  rewrite <- Z.shiftr_div_pow2, <- Z.land_ones by lia.
  rewrite (UuidFacts.uuid4_bits r H), Z.shiftr_lor, Z.shiftr_land,
    Z.land_lor_distr_l, <- Z.land_assoc.
  change (Z.land (Z.shiftr Uuid.free_bits 60) (Z.ones 4)) with (Z.ones 2).
  change (Z.land (Z.shiftr Uuid.fixed_bits 60) (Z.ones 4)) with 8.
  rewrite Z.land_ones by lia.
  pose proof (Z.mod_pos_bound (Z.shiftr r 60) (2 ^ 2) ltac:(lia)) as Hy.
  set (y := Z.shiftr r 60 mod 2 ^ 2) in *. clearbody y.
  assert (y = 0 ∨ y = 1 ∨ y = 2 ∨ y = 3) as Hcases by lia.
  destruct Hcases as [-> | [-> | [-> | ->]]]; split; apply Z.leb_le; reflexivity.
Qed.

(** X15: the id that POST generates is a 36-character string with dashes
    at positions 8, 13, 18 and 23, the version digit [4] at position 14 and
    one of [8], [9], [a], [b] at position 19. *)
Theorem X15_id_format rnd :
  0 <= rnd < 2 ^ 128 →
  let id := Uuid.str (Uuid.uuid4 rnd) in
  String.length id = 36%nat
  ∧ String.get 8 id = Some "-"%char ∧ String.get 13 id = Some "-"%char
  ∧ String.get 18 id = Some "-"%char ∧ String.get 23 id = Some "-"%char
  ∧ String.get 14 id = Some "4"%char
  ∧ (∃ c, String.get 19 id = Some c ∧ c ∈ ["8"; "9"; "a"; "b"]%char).
Proof.
  intros H id. subst id. unfold Uuid.str.
  pose proof (get_hex 32 12 (Uuid.uuid4 rnd) ltac:(lia)) as H12.
  pose proof (get_hex 32 16 (Uuid.uuid4 rnd) ltac:(lia)) as H16.
  change (Z.of_nat (32 - 1 - 12)) with 19 in H12.
  change (Z.of_nat (32 - 1 - 16)) with 15 in H16.
  rewrite (version_nibble rnd H) in H12.
  pose proof (variant_nibble rnd H) as Hv.
  set (v := (Uuid.uuid4 rnd / 16 ^ 15) mod 16) in *. clearbody v.
  pose proof (UuidFacts.hex_length 32 (Uuid.uuid4 rnd)) as L.
  set (h := Uuid.hex 32 (Uuid.uuid4 rnd)) in *. clearbody h.
  do 32 (destruct h as [| ? h]; [discriminate L |]).
  destruct h; [| discriminate L].
  cbn in H12, H16. injection H12 as ->. injection H16 as ->.
  cbn. repeat split.
  eexists. split; [reflexivity |].
  assert (v = 8 ∨ v = 9 ∨ v = 10 ∨ v = 11) as Hcases by lia.
  destruct Hcases as [-> | [-> | [-> | ->]]]; cbn; rewrite !elem_of_cons; auto.
Qed.

Lemma X15_id_format_witness :
  String.get 14 (Uuid.str (Uuid.uuid4 0)) = Some "4"%char.
Proof.
  exact (proj1 (proj2 (proj2 (proj2 (proj2 (proj2
           (X15_id_format 0 ltac:(lia)))))))).
Defined.
(** ** What the dispatch reads and answers *)

(** X16: a POST request reads its body through [data['title']] only: two
    POST requests whose bodies agree on that lookup (whatever else they
    hold, an [id] or a [completed] of the client's included, and whatever
    their paths) have the same outcome on the same table and draw. *)
Theorem X16_post_reads_title_only ev ev' rnd w data data' :
  method ev = "POST" → method ev' = "POST" →
  body_of ev = Parsed data → body_of ev' = Parsed data' →
  subscript data "title" = subscript data' "title" →
  run (lambda_handler ev rnd) w = run (lambda_handler ev' rnd) w.
Proof.
  intros Hm Hm' Hb Hb' Ht. rewrite !handler_post by done.
  unfold run, bind, lift, loads_body. by rewrite Hb, Hb', Ht.
Qed.

Lemma X16_post_reads_title_only_witness :
  run (lambda_handler
         (Event "POST" "/todos"
            (Parsed (PDict [("title", PStr "Buy milk"); ("id", PStr "mine");
                            ("completed", PBool true)]))) 7) (World ∅ [])
  = run (lambda_handler
           (Event "POST" "/" (Parsed (PDict [("title", PStr "Buy milk")]))) 7)
        (World ∅ []).
Proof.
  apply (X16_post_reads_title_only
           (Event "POST" "/todos"
              (Parsed (PDict [("title", PStr "Buy milk"); ("id", PStr "mine");
                              ("completed", PBool true)])))
           (Event "POST" "/" (Parsed (PDict [("title", PStr "Buy milk")])))
           7 (World ∅ [])
           (PDict [("title", PStr "Buy milk"); ("id", PStr "mine");
                   ("completed", PBool true)])
           (PDict [("title", PStr "Buy milk")])); reflexivity.
Defined.

(** X17: a response the handler returns has status 200 when the method is
    one of the five supported ones and status 400 otherwise; no failure is
    turned into a status, it is raised. *)
Theorem X17_status ev rnd w r w' :
  run (lambda_handler ev rnd) w = (Ok r, w') →
  statusCode r = (if bool_decide (method ev ∈ supported_methods) then 200 else 400).
Proof.
  unfold run, lambda_handler. intros H.
  assert (∀ m, String.eqb (method ev) m = true → m ∈ supported_methods →
            bool_decide (method ev ∈ supported_methods) = true) as Hin.
  { intros m Hm Hs. apply String.eqb_eq in Hm as ->. by apply bool_decide_eq_true. }
  assert (∀ status v w1, lift (response status v) w1 = (Ok r, w') →
            statusCode r = status) as Hresp.
  { intros status v w1 Hl. by apply lift_response_inv in Hl as (Hs & _). }
  unfold supported_methods in *.
  destruct (String.eqb (method ev) "OPTIONS") eqn:E1.
  { rewrite (Hin _ E1) by (rewrite !elem_of_cons; auto 10). by injection H as <- _. }
  destruct (String.eqb (method ev) "GET") eqn:E2.
  { rewrite (Hin _ E2) by (rewrite !elem_of_cons; auto 10).
    repeat (apply bind_ok_inv in H as (? & ? & _ & H)). cbv iota. eauto. }
  destruct (String.eqb (method ev) "POST") eqn:E3.
  { rewrite (Hin _ E3) by (rewrite !elem_of_cons; auto 10).
    repeat (apply bind_ok_inv in H as (? & ? & _ & H)). cbv iota. eauto. }
  destruct (String.eqb (method ev) "PUT") eqn:E4.
  { rewrite (Hin _ E4) by (rewrite !elem_of_cons; auto 10).
    repeat (apply bind_ok_inv in H as (? & ? & _ & H)). cbv iota. eauto. }
  destruct (String.eqb (method ev) "DELETE") eqn:E5.
  { rewrite (Hin _ E5) by (rewrite !elem_of_cons; auto 10).
    repeat (apply bind_ok_inv in H as (? & ? & _ & H)). cbv iota. eauto. }
  rewrite bool_decide_eq_false_2; [eauto |].
  apply String.eqb_neq in E1, E2, E3, E4, E5.
  rewrite !not_elem_of_cons. repeat split; [done .. | apply not_elem_of_nil].
Qed.

Lemma X17_status_witness :
  ∃ r w',
    run (lambda_handler (Event "DELETE" "/todos" (Parsed (PDict [("id", PStr "a")]))) 0)
        (World ∅ []) = (Ok r, w')
    ∧ statusCode r = 200.
Proof.
  eexists _, _. split; [reflexivity |].
  exact (X17_status (Event "DELETE" "/todos" (Parsed (PDict [("id", PStr "a")]))) 0
           (World ∅ []) _ _ eq_refl).
Defined.
(** X18: [response] passes the status through, sets the three CORS headers
    and dumps the body.  It returns for every value that [json.loads] can
    produce; when it raises, the exception is the [TypeError] of
    [json.dumps] on a [Decimal]. *)
Theorem X18_response status v :
  (loadable v = true → is_ok (response status v) = true)
  ∧ (∀ r, response status v = Ok r →
       statusCode r = status ∧ headers r = cors_headers
       ∧ Json.dumps v = Ok (body r))
  ∧ (∀ e, response status v = Raise e → e = decimal_error).
Proof.
  split; [| split].
  - intros H. rewrite is_ok_response. by apply dumps_loadable.
  - intros r. apply response_inv.
  - intros e. apply response_raise.
Qed.

Lemma X18_response_witness :
  is_ok (response 200 (PList [PDict [("title", PFloat "1.5")]; PNone])) = true.
Proof.
  exact (proj1 (X18_response 200 (PList [PDict [("title", PFloat "1.5")]; PNone]))
           eq_refl).
Defined.

(** X19: a DELETE request for an id under which nothing is stored leaves
    the table as it is, and is still answered with 200 after its
    [delete_item] call. *)
Theorem X19_delete_absent ev rnd w data k :
  method ev = "DELETE" → body_of ev = Parsed data →
  subscript data "id" = Ok (PStr k) →
  table w !! k = None →
  ∃ r,
    run (lambda_handler ev rnd) w
    = (Ok r, World (table w) (calls w ++ [CallDeleteItem (PStr k)]))
    ∧ statusCode r = 200.
Proof.
  intros Hm Hb Hk Hnone.
  rewrite (run_delete ev rnd w data k) by done. rewrite (delete_id _ _ Hnone).
  by eexists.
Qed.

Lemma X19_delete_absent_witness :
  ∃ r,
    run (lambda_handler (Event "DELETE" "/todos" (Parsed (PDict [("id", PStr "a")]))) 0)
        (World ∅ [])
    = (Ok r, World ∅ [CallDeleteItem (PStr "a")])
    ∧ statusCode r = 200.
Proof.
  exact (X19_delete_absent
           (Event "DELETE" "/todos" (Parsed (PDict [("id", PStr "a")]))) 0 (World ∅ [])
           (PDict [("id", PStr "a")]) "a" eq_refl eq_refl eq_refl (lookup_empty _)).
Defined.
